(** * oda-importer: the DAC code-translation layer

    A shallow embedding of [oda_importer/schemas/dac2_translation.py] and
    [oda_importer/dac1.py].  Python dictionaries are insertion-ordered
    association lists with unique keys, exceptions are an error type, and
    the mapping files, the data frames and the log live in an explicit
    state that is threaded through every call. *)

From stdpp Require Import base option list strings gmap.
From Stdlib Require Import ZArith.

Open Scope string_scope.
Open Scope list_scope.

(** ** Values *)

(** A code is what a JSON document or a data-frame cell can hold here: an
    integer or a string.  [1] and ["1"] are different dictionary keys. *)
Inductive code : Type :=
| CInt (z : Z)
| CStr (s : string).

#[global] Instance code_eq_dec : EqDecision code.
Proof. solve_decision. Defined.

(** Python exceptions.  The first group is the taxonomy of the specification,
    the second the built-in exceptions the modelled code can raise. *)
Inductive error : Type :=
| NotFoundError
| NetworkError
| ParseError
| UpdateFailedError
| MissingCorrectionsError
| AmbiguousInversionError
| KeyCoercionError
| KeyError (key : string)
| TypeError
| ValueError (msg : string)
| ReferenceError.

Inductive result (A : Type) : Type :=
| Ok (a : A)
| Err (e : error).
Arguments Ok {A} a.
Arguments Err {A} e.

(** ** Python dictionaries *)

Module PyDict.
Section Dict.
Context {K V : Type} `{EqDecision K}.

(** Items in insertion order. *)
Definition dict : Type := list (K * V).

Definition keys (d : dict) : list K := d.*1.
Definition values (d : dict) : list V := d.*2.

(** A dictionary holds every key once. *)
Definition wf (d : dict) : Prop := NoDup (keys d).

(** [d.get(k)] *)
Fixpoint get (d : dict) (k : K) : option V :=
  match d with
  | [] => None
  | (k', v) :: d' => if decide (k = k') then Some v else get d' k
  end.

(** [d[k] = v]: an existing key keeps its position, a new one goes last. *)
Fixpoint set (d : dict) (k : K) (v : V) : dict :=
  match d with
  | [] => [(k, v)]
  | (k', v') :: d' =>
      if decide (k = k') then (k', v) :: d' else (k', v') :: set d' k v
  end.

(** [d.update(other)], item by item in the order of [other]. *)
Definition update (d other : dict) : dict :=
  fold_left (fun acc kv => set acc kv.1 kv.2) other d.

(** [d1 | d2]: a copy of [d1] updated with [d2]. *)
Definition union (d1 d2 : dict) : dict := update d1 d2.

(** [d.get(k, default)] *)
Definition get_default (d : dict) (k : K) (default : V) : V :=
  match get d k with
  | Some v => v
  | None => default
  end.
End Dict.
Arguments dict : clear implicits.
End PyDict.

Abbreviation Mapping := (PyDict.dict code code).

(** [{v: k for k, v in d.items()}] *)
Definition invert (d : Mapping) : Mapping :=
  fold_left (fun acc kv => PyDict.set acc kv.2 kv.1) d [].

(** ** Inversion of a dictionary *)

(** No two distinct keys share a value. *)
Definition one_to_one (d : Mapping) : Prop :=
  ∀ k1 k2 v, PyDict.get d k1 = Some v → PyDict.get d k2 = Some v → k1 = k2.

Definition swap_item (kv : code * code) : code * code := (kv.2, kv.1).

(** ** State and exceptions *)

(** A computation runs on a state and returns a value or raises; the state
    reached when it raises is kept (Python does not roll back). *)
Definition M (S A : Type) : Type := S → result A * S.

Definition ret {S A : Type} (a : A) : M S A := fun s => (Ok a, s).

Definition raise {S A : Type} (e : error) : M S A := fun s => (Err e, s).

Definition bind {S A B : Type} (m : M S A) (k : A → M S B) : M S B :=
  fun s =>
    match m s with
    | (Ok a, s') => k a s'
    | (Err e, s') => (Err e, s')
    end.

Definition lift_result {S A : Type} (r : result A) : M S A := fun s => (r, s).

Declare Scope py_scope.
Delimit Scope py_scope with py.
Notation "x <- m ;; k" := (bind m (fun x => k))
  (at level 100, m at next level, right associativity) : py_scope.
Notation "m ;;; k" := (bind m (fun _ => k))
  (at level 100, right associativity) : py_scope.
Open Scope py_scope.

(** [d[k]] on a dictionary with string keys. *)
Definition getitem {V : Type} (d : PyDict.dict string V) (k : string) : result V :=
  match PyDict.get d k with
  | Some v => Ok v
  | None => Err (KeyError k)
  end.

(** ** Paths, parsed documents and the mapping store *)

(** A [pathlib] path, as its parts. *)
Abbreviation Path := (list string).

(** [p / name] *)
Definition path_join (p : Path) (name : string) : Path := p ++ [name].

(** A parsed XML document: nested dictionaries, lists and text. *)
Unset Elimination Schemes.
Inductive xml : Type :=
| XText (s : string)
| XList (l : list xml)
| XDict (d : list (string * xml)).
Set Elimination Schemes.

(** [x[key]] on a parsed document. *)
Definition xml_getitem (x : xml) (key : string) : result xml :=
  match x with
  | XDict d => getitem d key
  | XText _ | XList _ => Err TypeError
  end.

(** What a request for a schema document can come to. *)
Inductive fetch_outcome : Type :=
| Fetched (doc : xml)
| Unreachable
| Malformed.

(** The mapping files on disk, with the log of the schema documents that
    were requested (newest first). *)
Record Store : Type := mkStore {
  files : gmap Path Mapping;
  fetched : list string
}.

(** A row of a data frame: the cell of each column. *)
Abbreviation Row := (gmap string code).

(** A data frame: its rows in order. *)
Abbreviation DataFrame := (list Row).

(** The whole state: the store, the data-frame objects (a reference is an
    index in [frames]) and the messages logged (newest first). *)
Record World : Type := mkWorld {
  store : Store;
  frames : list DataFrame;
  log : list string
}.

(** Runs a store computation in the world. *)
Definition lift_store {A : Type} (m : M Store A) : M World A :=
  fun w =>
    let (r, s) := m (store w) in
    (r, mkWorld s (frames w) (log w)).

(** [df] names a live object: its rows. *)
Definition frame_read (df : nat) : M World DataFrame :=
  fun w =>
    match frames w !! df with
    | Some rows => (Ok rows, w)
    | None => (Err ReferenceError, w)
    end.

(** A new data-frame object; the existing ones are left as they are. *)
Definition frame_new (rows : DataFrame) : M World nat :=
  fun w => (Ok (length (frames w)), mkWorld (store w) (frames w ++ [rows]) (log w)).

(** [logger.info(msg)] *)
Definition logger_info (msg : string) : M World unit :=
  fun w => (Ok tt, mkWorld (store w) (frames w) (msg :: log w)).

(** ** The collaborators of [schemas/xml_tools.py] and [schemas/schema_tools.py] *)

Section Collaborators.
(** The remote schema endpoint: what fetching a URL comes to. *)
Variable remote : string → fetch_outcome.

(** [int(k)] on a string key, [None] when the string is not an integer. *)
Variable int_of_string : string → option Z.

(** The walk of the parsed schema that collects the donor-code to
    area-code entries. *)
Variable dac_to_area_codes : xml → Mapping.

(** Modelled from the spec: [exists] of the Mapping Store of 4.1, which is
    behind [read_mapping] and [extract_dac_to_area_codes]. *)
Definition store_exists (location : Path) : M Store bool :=
  fun s => (Ok (bool_decide (is_Some (files s !! location))), s).

(** Modelled from the spec: [read] of the Mapping Store of 4.1; it fails
    with [NotFoundError] if the location is absent. *)
Definition store_read (location : Path) : M Store Mapping :=
  fun s =>
    match files s !! location with
    | Some mapping => (Ok mapping, s)
    | None => (Err NotFoundError, s)
    end.

(** Modelled from the spec: [write] of the Mapping Store of 4.1; it
    overwrites the location and touches no other. *)
Definition store_write (location : Path) (mapping : Mapping) : M Store unit :=
  fun s => (Ok tt, mkStore (<[location := mapping]> (files s)) (fetched s)).

(** Modelled from the spec: [parse_xml], the Schema Fetcher of 4.2; one
    request per call, [NetworkError] when the endpoint is unreachable and
    [ParseError] when the document is malformed. *)
Definition parse_xml (xml_url : string) : M Store xml :=
  fun s =>
    let s' := mkStore (files s) (xml_url :: fetched s) in
    match remote xml_url with
    | Fetched doc => (Ok doc, s')
    | Unreachable => (Err NetworkError, s')
    | Malformed => (Err ParseError, s')
    end.

(** Modelled from the spec: [extract_dac_to_area_codes], the Code Extractor
    of 4.3; the mapping built from the document is written to [filename]
    and nowhere else. *)
Definition extract_dac_to_area_codes (xml_dict : xml) (filename : Path)
  : M Store unit :=
  store_write filename (dac_to_area_codes xml_dict).

(** Modelled from the spec: the key coercion of the Mapping Loader of 4.4
    on one key; an integer key is kept, a string key is read as an integer
    or fails with [KeyCoercionError]. *)
Definition coerce_key (k : code) : result code :=
  match k with
  | CInt z => Ok (CInt z)
  | CStr s =>
      match int_of_string s with
      | Some z => Ok (CInt z)
      | None => Err KeyCoercionError
      end
  end.

(** Modelled from the spec: the key coercion of 4.4 over the items of a
    mapping, in their order, as [{int(k): v for k, v in mapping.items()}]. *)
Fixpoint coerce_items (items : Mapping) (acc : Mapping) : result Mapping :=
  match items with
  | [] => Ok acc
  | (k, v) :: rest =>
      match coerce_key k with
      | Ok k' => coerce_items rest (PyDict.set acc k' v)
      | Err e => Err e
      end
  end.

(** Modelled from the spec: the key coercion of 4.4 on a whole mapping. *)
Definition coerce_keys (mapping : Mapping) : result Mapping :=
  coerce_items mapping [].

(** Modelled from the spec: [read_mapping], the Mapping Loader of 4.4.  A
    mapping that exists is read; otherwise [update] runs once and the
    mapping is read, or [UpdateFailedError] is raised when it still does
    not exist.  With [keys_as_int] the keys are coerced to integers, which
    fails with [KeyCoercionError]. *)
Definition read_mapping (location : Path) (keys_as_int : bool)
    (update : M Store unit) : M Store Mapping :=
  present <- store_exists location ;;
  mapping <-
    (if present then store_read location
     else
       update ;;;
       present <- store_exists location ;;
       if present then store_read location else raise UpdateFailedError) ;;
  if keys_as_int then lift_result (coerce_keys mapping) else ret mapping.

(** Modelled from the spec: the Column Translator of 4.5 on one row.  The
    target cell is the source cell looked up in the mapping, or the source
    cell itself when it is not a key.  The data sets of 3 and 6 always have
    the source column; a row without it is left as it is. *)
Definition translate_row (mapping : Mapping) (source_column target_column : string)
    (row : Row) : Row :=
  match row !! source_column with
  | Some v => <[target_column := PyDict.get_default mapping v v]> row
  | None => row
  end.

(** Modelled from the spec: the Column Translator of 4.5 on the rows of a
    data set; rows are neither dropped, added nor reordered. *)
Definition translate (rows : DataFrame) (mapping : Mapping)
    (source_column target_column : string) : DataFrame :=
  translate_row mapping source_column target_column <$> rows.

(** Modelled from the spec: [map_area_codes] of [schemas/schema_tools.py],
    the Column Translator of 4.5; it returns a new data frame and leaves
    the one it was given as it is. *)
Definition map_area_codes (df : nat) (area_code_mapping : Mapping)
    (source_column target_column : string) : M World nat :=
  rows <- frame_read df ;;
  frame_new (translate rows area_code_mapping source_column target_column).

(** Modelled from the spec: [map_amount_type_codes] of
    [schemas/schema_tools.py], the Column Translator of 4.5 again. *)
Definition map_amount_type_codes (df : nat) (prices_mapping : Mapping)
    (source_column target_column : string) : M World nat :=
  rows <- frame_read df ;;
  frame_new (translate rows prices_mapping source_column target_column).
End Collaborators.

(** Modelled from the spec: the default [source_column] and
    [target_column] of [map_area_codes], the donor-code column of 4.6, under
    the name it has in the scenarios of 8. *)
Definition donor_code : string := "donor_code".

(** ** [oda_importer/schemas/dac2_translation.py] *)

Module Dac2Translation.
Section Code.
(** [ImporterPaths.schemas], the directory of the mapping files. *)
Variable schemas : Path.
Variable remote : string → fetch_outcome.
Variable int_of_string : string → option Z.
Variable dac_to_area_codes : xml → Mapping.
(** [prices_mapping] of [schemas/dac1_translation.py]: a load from the
    mapping store. *)
Variable prices_mapping : M Store Mapping.

Definition DAC2_TRANSLATION_SCHEMA_URL : string :=
  "https://stats.oecd.org/FileView2.aspx?IDFile=997ad7fb-48f1-4046-945d-067dc5bec7de".

Definition MAPPINGS : PyDict.dict string Path :=
  [ ("dac2_codes_area", path_join schemas "dac2_codes_area.json");
    ("area_code_corrections", path_join schemas "area_code_corrections.json") ].

(** Pipeline to update the DAC1 translation mappings. *)
Definition update_dac2_translation_mappings : M Store unit :=
  doc <- parse_xml remote DAC2_TRANSLATION_SCHEMA_URL ;;
  xml_data <- lift_result (xml_getitem doc "Structures") ;;
  filename <- lift_result (getitem MAPPINGS "dac2_codes_area") ;;
  extract_dac_to_area_codes dac_to_area_codes xml_data filename.

(** Reads the area code mapping. *)
Definition area_code_mapping : M Store Mapping :=
  base_path <- lift_result (getitem MAPPINGS "dac2_codes_area") ;;
  base <- read_mapping int_of_string base_path true
            update_dac2_translation_mappings ;;
  corrections_path <- lift_result (getitem MAPPINGS "area_code_corrections") ;;
  corrections <- read_mapping int_of_string corrections_path true
                   update_dac2_translation_mappings ;;
  ret (PyDict.union base corrections).

Definition convert_to_dotstat_codes (df : nat) : M World nat :=
  area_codes <- lift_store area_code_mapping ;;
  prices <- lift_store prices_mapping ;;
  let prices_codes := invert prices in
  df <- map_area_codes df area_codes donor_code donor_code ;;
  df <- map_area_codes df area_codes "recipient_code" "recipient_code" ;;
  df <- map_amount_type_codes df prices_codes "data_type_code" "data_type_code" ;;
  ret df.
End Code.
End Dac2Translation.

(** ** [oda_importer/dac1.py] *)

Module Dac1.
Section Code.
(** The schema translation table and the data types read from it. *)
Variables SchemaTranslation Dtypes : Type.
(** The query builder object. *)
Variable QueryBuilder : Type.
(** [read_schema_translation()] and [get_dtypes(schema=...)] *)
Variable read_schema_translation : M World SchemaTranslation.
Variable get_dtypes : SchemaTranslation → result Dtypes.
(** The constructor [QueryBuilder(dataflow_id=...)] and the methods
    [build_dac1_filter], [set_filter], [set_time_period], [build_query] *)
Variable new_query_builder : string → result QueryBuilder.
Variable build_dac1_filter :
  QueryBuilder → PyDict.dict string code → result string.
Variable set_filter : QueryBuilder → string → result QueryBuilder.
Variable set_time_period :
  QueryBuilder → option Z → option Z → result QueryBuilder.
Variable build_query : QueryBuilder → result string.

(** The options handed to the CSV reader. *)
Record ReadCsvOptions : Type := mkReadCsvOptions {
  na_values : list string;
  keep_default_na : bool;
  dtype : Dtypes
}.

(** [api_response_to_df(url=..., read_csv_options=...)]: the download,
    which yields a new data frame. *)
Variable api_response_to_df : string → ReadCsvOptions → M World nat.
(** [preprocess(df=..., schema_translation=...)] *)
Variable preprocess : nat → SchemaTranslation → M World nat.
(** [convert_to_dotstat_codes] of [schemas/dac1_translation.py] *)
Variable convert_to_dotstat_codes : nat → M World nat.

Definition DATAFLOW_ID : string := "DSD_DAC1@DF_DAC1".

(** The truth value of [download_filters]: [None] and the empty
    dictionary are false. *)
Definition truthy (download_filters : option (PyDict.dict string code)) : bool :=
  match download_filters with
  | Some (_ :: _) => true
  | Some [] | None => false
  end.

(** The URL that [download_dac1] builds from its arguments, as a value:
    the builder for [DATAFLOW_ID], the filter when [download_filters] is
    true, the time period, the query. *)
Definition query_url (start_year end_year : option Z)
    (download_filters : option (PyDict.dict string code)) : result string :=
  match new_query_builder DATAFLOW_ID with
  | Ok qb =>
      match
        (if truthy download_filters then
           match build_dac1_filter qb (default [] download_filters) with
           | Ok filter_str => set_filter qb filter_str
           | Err e => Err e
           end
         else Ok qb)
      with
      | Ok qb =>
          match set_time_period qb start_year end_year with
          | Ok qb => build_query qb
          | Err e => Err e
          end
      | Err e => Err e
      end
  | Err e => Err e
  end.

(** Download the DAC1 data from the API. *)
Definition download_dac1 (start_year end_year : option Z)
    (download_filters : option (PyDict.dict string code))
    (pre_process dotstat_codes : bool) : M World nat :=
  schema_translation <- read_schema_translation ;;
  data_types <- lift_result (get_dtypes schema_translation) ;;
  let df_options := mkReadCsvOptions ["_Z"; "nan"] true data_types in
  logger_info "Downloading DAC1 data. This may take a while..." ;;;
  qb <- lift_result (new_query_builder DATAFLOW_ID) ;;
  qb <- (if truthy download_filters then
           filter_str <- lift_result
             (build_dac1_filter qb (default [] download_filters)) ;;
           lift_result (set_filter qb filter_str)
         else ret qb) ;;
  qb <- lift_result (set_time_period qb start_year end_year) ;;
  url <- lift_result (build_query qb) ;;
  df <- api_response_to_df url df_options ;;
  df <- (if pre_process then
           df <- preprocess df schema_translation ;;
           if dotstat_codes then convert_to_dotstat_codes df else ret df
         else
           if dotstat_codes then
             raise (ValueError "Cannot convert to dotstat codes without preprocessing.")
           else ret df) ;;
  logger_info "Data downloaded correctly." ;;;
  ret df.
End Code.
End Dac1.

(** A computation that only creates data-frame objects: the ones that
    existed are still there, unchanged, whether it returns or raises. *)
Definition keeps_frames {A : Type} (m : M World A) : Prop :=
  ∀ w, ∃ created, frames (m w).2 = frames w ++ created.

(** ** What a translated column is

    Stated on the cells, with the dictionary lookup alone. *)





(** ** A worked scenario

    The store, the endpoint and the data frame of the examples below. *)

Module Scenario.

(** A decimal reading of a key: an optional minus sign, then digits. *)
Definition digit_of (a : Ascii.ascii) : option Z :=
  let n := Z.of_nat (Ascii.nat_of_ascii a) in
  if bool_decide (48 ≤ n ≤ 57)%Z then Some (n - 48)%Z else None.

Fixpoint digits_value (s : string) (acc : Z) : option Z :=
  match s with
  | EmptyString => Some acc
  | String a rest =>
      match digit_of a with
      | Some n => digits_value rest (10 * acc + n)%Z
      | None => None
      end
  end.

Definition decimal (s : string) : option Z :=
  match s with
  | EmptyString => None
  | String a rest =>
      if bool_decide (Ascii.nat_of_ascii a = 45) then
        match rest with
        | EmptyString => None
        | _ => Z.opp <$> digits_value rest 0
        end
      else digits_value s 0
  end.

Definition schemas : Path := ["oda_importer"; "schemas"].

Definition base_path : Path := path_join schemas "dac2_codes_area.json".
Definition corrections_path : Path :=
  path_join schemas "area_code_corrections.json".

Definition base_file : Mapping :=
  [(CStr "1", CStr "A"); (CStr "2", CStr "B")].
Definition corrections_file : Mapping :=
  [(CStr "2", CStr "B2"); (CStr "3", CStr "C")].
Definition bad_file : Mapping :=
  [(CStr "1", CStr "A"); (CStr "two", CStr "B")].

(** The endpoint serves a document with a [Structures] entry. *)
Definition remote (xml_url : string) : fetch_outcome :=
  Fetched (XDict [("Structures", XDict [("Codelists", XList [])])]).

Definition dac_to_area_codes (xml_dict : xml) : Mapping := base_file.

(** Both files on disk, nothing requested so far. *)
Definition disk : Store :=
  mkStore (<[base_path := base_file]> (<[corrections_path := corrections_file]> ∅)) [].

(** The correction file is missing. *)
Definition disk_without_corrections : Store :=
  mkStore (<[base_path := base_file]> ∅) [].

(** The base file has a key that is not an integer. *)
Definition disk_bad_key : Store :=
  mkStore (<[base_path := bad_file]> (<[corrections_path := corrections_file]> ∅)) [].

Definition merged : Mapping :=
  [(CInt 1, CStr "A"); (CInt 2, CStr "B2"); (CInt 3, CStr "C")].

Definition prices : Mapping :=
  [(CStr "N", CStr "USD_Nominal"); (CStr "D", CStr "USD_Constant")].
Definition ambiguous_prices : Mapping :=
  [(CStr "A", CStr "x"); (CStr "B", CStr "x")].

Definition update : M Store unit :=
  Dac2Translation.update_dac2_translation_mappings
    schemas remote dac_to_area_codes.

Definition area_code_mapping : M Store Mapping :=
  Dac2Translation.area_code_mapping schemas remote decimal dac_to_area_codes.

Definition convert_to_dotstat_codes (prices_file : Mapping) : nat → M World nat :=
  Dac2Translation.convert_to_dotstat_codes
    schemas remote decimal dac_to_area_codes (ret prices_file).

Definition row (donor recipient data_type value : code) : Row :=
  <["donor_code" := donor]>
    (<["recipient_code" := recipient]>
       (<["data_type_code" := data_type]> (<["value" := value]> ∅))).

Definition rows : DataFrame :=
  [ row (CInt 1) (CInt 2) (CStr "USD_Nominal") (CInt 10);
    row (CInt 9) (CInt 3) (CStr "N") (CInt 20) ].

Definition converted_rows : DataFrame :=
  [ row (CStr "A") (CStr "B2") (CStr "N") (CInt 10);
    row (CInt 9) (CStr "C") (CStr "N") (CInt 20) ].



(** One data frame, the caller's, at reference [0]. *)
Definition world : World := mkWorld disk [rows] [].

(** Collaborators of [download_dac1]: the builder is the query string so
    far, the download yields [rows] as a new data frame. *)
Definition read_schema_translation : M World unit := ret tt.
Definition get_dtypes (schema : unit) : result unit := Ok tt.
Definition new_query_builder (dataflow_id : string) : result string :=
  Ok dataflow_id.
Definition build_dac1_filter (qb : string) (filters : PyDict.dict string code)
  : result string := Ok "filter".
Definition set_filter (qb filter_str : string) : result string :=
  Ok (qb +:+ "/" +:+ filter_str).
Definition set_time_period (qb : string) (start_year end_year : option Z)
  : result string := Ok qb.
Definition build_query (qb : string) : result string := Ok qb.
Definition api_response_to_df (url : string) (options : Dac1.ReadCsvOptions unit)
  : M World nat := frame_new rows.
Definition preprocess (df : nat) (schema : unit) : M World nat := ret df.

Definition download_dac1 :=
  Dac1.download_dac1 unit unit string read_schema_translation get_dtypes
    new_query_builder build_dac1_filter set_filter set_time_period build_query
    api_response_to_df preprocess (convert_to_dotstat_codes prices).

Definition query_url :=
  Dac1.query_url string new_query_builder build_dac1_filter set_filter
    set_time_period build_query.

(** Nothing on disk, no data frame, nothing logged. *)
Definition empty_world : World := mkWorld (mkStore ∅ []) [] [].

End Scenario.

(** ** Further cases of the scenario *)

Module Cases.

(** The endpoint cannot be reached. *)
Definition remote_down (xml_url : string) : fetch_outcome := Unreachable.

(** The endpoint serves a document without a [Structures] entry. *)
Definition remote_without_structures (xml_url : string) : fetch_outcome :=
  Fetched (XDict [("Header", XText "DAC")]).

(** No mapping file on disk, nothing requested so far. *)
Definition empty_disk : Store := mkStore ∅ [].

(** Only the correction file is on disk. *)
Definition disk_without_base : Store :=
  mkStore (<[Scenario.corrections_path := Scenario.corrections_file]> ∅) [].

(** The download fails. *)
Definition api_down (url : string) (options : Dac1.ReadCsvOptions unit)
  : M World nat := raise NetworkError.

(** Preprocessing renames nothing and yields a copy of the data frame. *)
Definition preprocess_copy (df : nat) (schema : unit) : M World nat :=
  rows <- frame_read df ;; frame_new rows.

(** Preprocessing fails on a missing column. *)
Definition preprocess_fails (df : nat) (schema : unit) : M World nat :=
  raise (KeyError "DONOR").

(** The filter cannot be built. *)
Definition filter_fails (qb : string) (filters : PyDict.dict string code)
  : result string := Err (ValueError "unknown filter").

Definition filters : option (PyDict.dict string code) :=
  Some [("donor", CStr "USA")].

(** Both mapping files on disk, no data frame yet, nothing logged. *)
Definition ready_world : World := mkWorld Scenario.disk [] [].

End Cases.

(** An integer key. *)
Definition int_key (k : code) : Prop := ∃ z, k = CInt z.

(** What the update pipeline can raise. *)
Definition update_error (e : error) : Prop :=
  e = NetworkError ∨ e = ParseError ∨ e = TypeError
  ∨ e = KeyError "Structures".

(** * Verification *)

(** ** Lemmas on dictionaries *)

Section DictFacts.
Context {K V : Type} `{EqDecision K}.
Implicit Types (d : PyDict.dict K V) (k : K) (v : V).

Lemma get_set_eq d k v : PyDict.get (PyDict.set d k v) k = Some v.
Proof.
  induction d as [|[k' v'] d IH]; simpl.
  - by rewrite decide_True.
  - destruct (decide (k = k')) as [->|Hne]; simpl.
    + by rewrite decide_True.
    + by rewrite decide_False.
Qed.

Lemma get_set_ne d k k' v :
  k ≠ k' → PyDict.get (PyDict.set d k v) k' = PyDict.get d k'.
Proof.
  intros Hne. induction d as [|[k0 v0] d IH]; simpl.
  - by rewrite decide_False.
  - destruct (decide (k = k0)) as [->|Hk]; simpl.
    + by rewrite !decide_False.
    + by rewrite IH.
Qed.

Lemma keys_set d k v k' :
  k' ∈ PyDict.keys (PyDict.set d k v) ↔ k' = k ∨ k' ∈ PyDict.keys d.
Proof.
  unfold PyDict.keys. induction d as [|[k0 v0] d IH]; simpl.
  - rewrite list_elem_of_singleton, elem_of_nil. tauto.
  - destruct (decide (k = k0)) as [->|Hk]; simpl.
    + rewrite !elem_of_cons. tauto.
    + rewrite !elem_of_cons, IH. tauto.
Qed.

Lemma wf_set d k v : PyDict.wf d → PyDict.wf (PyDict.set d k v).
Proof.
  unfold PyDict.wf. induction d as [|[k0 v0] d IH]; simpl.
  - intros _. apply NoDup_singleton.
  - rewrite NoDup_cons. intros [Hnin Hd].
    destruct (decide (k = k0)) as [->|Hk]; simpl.
    + by apply NoDup_cons.
    + apply NoDup_cons. split; [|by apply IH].
      intros Hin. apply (keys_set d k v k0) in Hin.
      destruct Hin as [Heq|Hin]; [by apply Hk | by apply Hnin].
Qed.

Lemma get_None_keys d k : PyDict.get d k = None ↔ k ∉ PyDict.keys d.
Proof.
  unfold PyDict.keys. induction d as [|[k0 v0] d IH]; simpl.
  - split; [intros _; apply not_elem_of_nil | done].
  - destruct (decide (k = k0)) as [->|Hk].
    + split; [done | intros Hn; exfalso; apply Hn; left].
    + rewrite IH, not_elem_of_cons. tauto.
Qed.

Lemma set_fresh d k v :
  k ∉ PyDict.keys d → PyDict.set d k v = d ++ [(k, v)].
Proof.
  unfold PyDict.keys. induction d as [|[k0 v0] d IH]; simpl; [done|].
  rewrite not_elem_of_cons. intros [Hk Hd].
  rewrite decide_False by done. by rewrite IH.
Qed.

(** Updating adds the keys of the other dictionary and keeps it valid. *)
Lemma wf_update d other : PyDict.wf d → PyDict.wf (PyDict.update d other).
Proof.
  unfold PyDict.update. revert d.
  induction other as [|[k v] other IH]; simpl; [done|].
  intros d Hd. apply IH. by apply wf_set.
Qed.

Lemma keys_update d other k :
  k ∈ PyDict.keys (PyDict.update d other)
  ↔ k ∈ PyDict.keys d ∨ k ∈ PyDict.keys other.
Proof.
  unfold PyDict.update. revert d.
  induction other as [|[k0 v0] other IH]; simpl; intros d.
  - change (PyDict.keys (@nil (K * V))) with (@nil K).
    rewrite elem_of_nil. tauto.
  - change (PyDict.keys ((k0, v0) :: other)) with (k0 :: PyDict.keys other).
    rewrite IH, keys_set, elem_of_cons. tauto.
Qed.

Lemma get_update_None d other k :
  PyDict.get other k = None →
  PyDict.get (PyDict.update d other) k = PyDict.get d k.
Proof.
  unfold PyDict.update. revert d.
  induction other as [|[k0 v0] other IH]; simpl; intros d; [done|].
  destruct (decide (k = k0)) as [->|Hk]; [done|].
  intros Hn. rewrite IH by done. by apply get_set_ne.
Qed.

Lemma get_update_Some d other k v :
  PyDict.wf other → PyDict.get other k = Some v →
  PyDict.get (PyDict.update d other) k = Some v.
Proof.
  unfold PyDict.wf, PyDict.keys. revert d.
  induction other as [|[k0 v0] other IH]; simpl; intros d; [done|].
  rewrite NoDup_cons. intros [Hnin Hnd].
  change (PyDict.update d ((k0, v0) :: other))
    with (PyDict.update (PyDict.set d k0 v0) other).
  destruct (decide (k = k0)) as [->|Hk].
  - intros [= ->].
    rewrite (get_update_None _ other k0) by (by apply get_None_keys).
    apply get_set_eq.
  - intros Hg. by apply IH.
Qed.
End DictFacts.

(** ** Lemmas on inversion *)

Section InvertFacts.
Implicit Types (d acc : Mapping) (k v : code).

Lemma get_elem_of d k v : PyDict.wf d → (k, v) ∈ d → PyDict.get d k = Some v.
Proof.
  unfold PyDict.wf, PyDict.keys.
  induction d as [|[k0 v0] d IH]; simpl; [by rewrite elem_of_nil|].
  rewrite NoDup_cons, elem_of_cons. intros [Hnin Hnd] [[= -> ->]|Hin].
  - by destruct (decide (k0 = k0)).
  - destruct (decide (k = k0)) as [->|Hk]; [|by apply IH].
    exfalso. apply Hnin. apply list_elem_of_fmap. by exists (k0, v).
Qed.

Lemma elem_of_get d k v : PyDict.get d k = Some v → (k, v) ∈ d.
Proof.
  induction d as [|[k0 v0] d IH]; simpl; [done|].
  destruct (decide (k = k0)) as [->|Hk].
  - intros [= ->]. left.
  - intros Hg. right. by apply IH.
Qed.

(** On a valid dictionary, one-to-one means that the values are distinct. *)
Lemma one_to_one_values d :
  PyDict.wf d → one_to_one d → NoDup (PyDict.values d).
Proof.
  unfold PyDict.values.
  induction d as [|[k0 v0] d IH]; simpl; intros Hwf Hinj.
  - apply NoDup_nil_2.
  - pose proof Hwf as Hwf'. unfold PyDict.wf, PyDict.keys in Hwf'.
    simpl in Hwf'. apply NoDup_cons in Hwf'. destruct Hwf' as [Hnin Hnd].
    apply NoDup_cons. split.
    + intros Hin. apply list_elem_of_fmap in Hin.
      destruct Hin as [[k1 v1] [Heq Hin]]. simpl in Heq. subst v1.
      assert (k1 = k0) as ->.
      { apply (Hinj k1 k0 v0).
        - apply get_elem_of; [done | by right].
        - simpl. by destruct (decide (k0 = k0)). }
      apply Hnin. apply list_elem_of_fmap. by exists (k0, v0).
    + apply IH; [done|]. intros k1 k2 v H1 H2.
      apply (Hinj k1 k2 v); apply get_elem_of; try done; right;
        by apply elem_of_get.
Qed.

Lemma values_one_to_one d :
  PyDict.wf d → NoDup (PyDict.values d) → one_to_one d.
Proof.
  unfold PyDict.values, PyDict.wf, PyDict.keys, one_to_one.
  induction d as [|[k0 v0] d IH]; simpl; intros Hwf Hnd k1 k2 v; [done|].
  apply NoDup_cons in Hwf. destruct Hwf as [Hk0 Hwf].
  apply NoDup_cons in Hnd. destruct Hnd as [Hv0 Hnd].
  destruct (decide (k1 = k0)) as [->|H1], (decide (k2 = k0)) as [->|H2].
  - done.
  - intros [= ->] Hg. exfalso. apply Hv0.
    apply list_elem_of_fmap. exists (k2, v). split; [done|].
    by apply elem_of_get.
  - intros Hg [= ->]. exfalso. apply Hv0.
    apply list_elem_of_fmap. exists (k1, v). split; [done|].
    by apply elem_of_get.
  - by apply IH.
Qed.

(** With distinct values every item of the comprehension is a new key. *)
Lemma invert_from_distinct d acc :
  NoDup (PyDict.values d) →
  (∀ v, v ∈ PyDict.values d → v ∉ PyDict.keys acc) →
  fold_left (fun a kv => PyDict.set a kv.2 kv.1) d acc
  = acc ++ (swap_item <$> d).
Proof.
  unfold PyDict.values. revert acc.
  induction d as [|[k0 v0] d IH]; simpl; intros acc Hnd Hfresh.
  - by rewrite app_nil_r.
  - apply NoDup_cons in Hnd. destruct Hnd as [Hv0 Hnd].
    rewrite set_fresh by (apply Hfresh; left).
    rewrite IH; [by rewrite <- app_assoc | done |].
    intros v Hv. unfold PyDict.keys. rewrite fmap_app, elem_of_app.
    simpl. rewrite list_elem_of_singleton. intros [Hin| ->].
    + by apply (Hfresh v); [right|].
    + by apply Hv0.
Qed.

Lemma invert_distinct d : NoDup (PyDict.values d) → invert d = swap_item <$> d.
Proof.
  intros Hnd. unfold invert. rewrite invert_from_distinct; [done..|].
  intros v _. apply not_elem_of_nil.
Qed.

Lemma values_swap d : PyDict.values (swap_item <$> d) = PyDict.keys d.
Proof.
  unfold PyDict.values, PyDict.keys. rewrite <- list_fmap_compose.
  by apply list_fmap_ext.
Qed.

Lemma swap_swap d : swap_item <$> (swap_item <$> d) = d.
Proof.
  rewrite <- list_fmap_compose. rewrite <- (list_fmap_id d) at 2.
  apply list_fmap_ext. by intros _ [k v] _.
Qed.

(** The comprehension never loses a value: its keys are the values of [d]. *)
Lemma keys_invert_from d acc v :
  v ∈ PyDict.keys (fold_left (fun a kv => PyDict.set a kv.2 kv.1) d acc)
  ↔ v ∈ PyDict.keys acc ∨ v ∈ PyDict.values d.
Proof.
  unfold PyDict.values. revert acc.
  induction d as [|[k0 v0] d IH]; simpl; intros acc.
  - rewrite elem_of_nil. tauto.
  - rewrite IH, keys_set, elem_of_cons. tauto.
Qed.

(** A later item with the same value overwrites an earlier one. *)
Lemma get_invert_from_absent d acc v :
  v ∉ PyDict.values d →
  PyDict.get (fold_left (fun a kv => PyDict.set a kv.2 kv.1) d acc) v
  = PyDict.get acc v.
Proof.
  unfold PyDict.values. revert acc.
  induction d as [|[k0 v0] d IH]; simpl; intros acc; [done|].
  rewrite not_elem_of_cons. intros [Hne Hnin].
  rewrite IH by done. by apply get_set_ne.
Qed.
End InvertFacts.

(** ** Running computations *)

Section MonadFacts.
Context {S A B : Type}.
Implicit Types (m : M S A) (k : A → M S B).

Lemma bind_Ok m k s a s' : m s = (Ok a, s') → bind m k s = k a s'.
Proof. unfold bind. by intros ->. Qed.

Lemma bind_Err m k s e s' : m s = (Err e, s') → bind m k s = (Err e, s').
Proof. unfold bind. by intros ->. Qed.

Lemma bind_inv_Ok m k s b s'' :
  bind m k s = (Ok b, s'') → ∃ a s', m s = (Ok a, s') ∧ k a s' = (Ok b, s'').
Proof.
  unfold bind. destruct (m s) as [[a|e] s']; [by eauto | done].
Qed.
End MonadFacts.

Lemma lift_store_Ok {A : Type} (m : M Store A) w a s :
  m (store w) = (Ok a, s) →
  lift_store m w = (Ok a, mkWorld s (frames w) (log w)).
Proof. unfold lift_store. by intros ->. Qed.

Lemma lift_store_frames {A : Type} (m : M Store A) w :
  frames (lift_store m w).2 = frames w.
Proof. unfold lift_store. by destruct (m (store w)). Qed.

(** ** Key coercion *)

Section CoerceFacts.
Variable int_of_string : string → option Z.

Lemma coerce_key_int k k' : coerce_key int_of_string k = Ok k' → int_key k'.
Proof.
  destruct k as [z|s]; simpl.
  - intros [= <-]. by exists z.
  - destruct (int_of_string s) as [z|]; [|done]. intros [= <-]. by exists z.
Qed.

Lemma coerce_items_wf items acc mapping :
  PyDict.wf acc → coerce_items int_of_string items acc = Ok mapping →
  PyDict.wf mapping.
Proof.
  revert acc. induction items as [|[k v] items IH]; simpl; intros acc Hwf.
  - by intros [= <-].
  - destruct (coerce_key int_of_string k) as [k'|e]; [|done].
    apply IH. by apply wf_set.
Qed.

Lemma coerce_items_int items acc mapping :
  Forall int_key (PyDict.keys acc) →
  coerce_items int_of_string items acc = Ok mapping →
  Forall int_key (PyDict.keys mapping).
Proof.
  revert acc. induction items as [|[k v] items IH]; simpl; intros acc Hacc.
  - by intros [= <-].
  - destruct (coerce_key int_of_string k) as [k'|e] eqn:Hk; [|done].
    apply IH. apply Forall_forall. intros k0 Hin.
    apply keys_set in Hin. destruct Hin as [->|Hin].
    + by eapply coerce_key_int.
    + by eapply Forall_forall in Hacc.
Qed.

(** A string key that is not an integer stops the coercion. *)
Lemma coerce_items_bad items acc s :
  CStr s ∈ PyDict.keys items → int_of_string s = None →
  coerce_items int_of_string items acc = Err KeyCoercionError.
Proof.
  unfold PyDict.keys. intros Hin Hbad. revert acc.
  induction items as [|[k v] items IH]; simpl in *; intros acc.
  - by apply elem_of_nil in Hin.
  - destruct k as [z|s0]; simpl.
    + apply IH. apply elem_of_cons in Hin. by destruct Hin.
    + destruct (int_of_string s0) as [z|] eqn:Hs0; [|done].
      apply IH. apply elem_of_cons in Hin. destruct Hin as [[= ->]|Hin];
        [congruence | done].
Qed.

End CoerceFacts.

(** ** The mapping files and the loader *)

Section UpdateFacts.
Variable schemas : Path.
Variable remote : string → fetch_outcome.
Variable dac_to_area_codes : xml → Mapping.

Local Abbreviation base_path := (path_join schemas "dac2_codes_area.json").
Local Abbreviation corrections_path :=
  (path_join schemas "area_code_corrections.json").
Local Abbreviation url := Dac2Translation.DAC2_TRANSLATION_SCHEMA_URL.
Local Abbreviation update :=
  (Dac2Translation.update_dac2_translation_mappings
     schemas remote dac_to_area_codes).

Lemma MAPPINGS_base :
  getitem (Dac2Translation.MAPPINGS schemas) "dac2_codes_area" = Ok base_path.
Proof. reflexivity. Qed.

Lemma MAPPINGS_corrections :
  getitem (Dac2Translation.MAPPINGS schemas) "area_code_corrections"
  = Ok corrections_path.
Proof. reflexivity. Qed.

Lemma paths_distinct : base_path ≠ corrections_path.
Proof.
  unfold path_join. intros Heq.
  apply app_inv_head in Heq. discriminate Heq.
Qed.

(** The update pipeline, case by case: one request, then at most one
    write, to the base mapping. *)
Lemma update_run s :
  update s
  = let s1 := mkStore (files s) (url :: fetched s) in
    match remote url with
    | Fetched doc =>
        match xml_getitem doc "Structures" with
        | Ok xml_data =>
            (Ok tt, mkStore (<[base_path := dac_to_area_codes xml_data]> (files s))
                            (url :: fetched s))
        | Err e => (Err e, s1)
        end
    | Unreachable => (Err NetworkError, s1)
    | Malformed => (Err ParseError, s1)
    end.
Proof.
  unfold Dac2Translation.update_dac2_translation_mappings, bind,
    parse_xml, lift_result.
  destruct (remote url) as [doc| |]; [|done..].
  destruct (xml_getitem doc "Structures") as [xml_data|e]; [|done].
  rewrite MAPPINGS_base. reflexivity.
Qed.

Lemma update_fetched s : fetched (update s).2 = url :: fetched s.
Proof.
  rewrite update_run. simpl. destruct (remote url) as [doc| |]; [|done..].
  by destruct (xml_getitem doc "Structures").
Qed.

Lemma update_files_other s location :
  location ≠ base_path → files (update s).2 !! location = files s !! location.
Proof.
  intros Hne. rewrite update_run. simpl.
  destruct (remote url) as [doc| |]; [|done..].
  destruct (xml_getitem doc "Structures"); [|done].
  simpl. by rewrite lookup_insert_ne.
Qed.

Lemma xml_getitem_error x key e :
  xml_getitem x key = Err e → e = TypeError ∨ e = KeyError key.
Proof.
  destruct x as [?|?|d]; simpl; [by intros [= <-]; left..|].
  unfold getitem. destruct (PyDict.get d key); [done|].
  intros [= <-]. by right.
Qed.

Lemma update_raises s e s' : update s = (Err e, s') → update_error e.
Proof.
  rewrite update_run. simpl. unfold update_error.
  destruct (remote url) as [doc| |];
    [|intros [= <- _]; by left|intros [= <- _]; right; by left].
  destruct (xml_getitem doc "Structures") as [?|e0] eqn:Hx; [done|].
  intros [= <- _]. apply xml_getitem_error in Hx.
  destruct Hx as [->| ->]; [right; right; by left | by do 3 right].
Qed.
End UpdateFacts.

Section LoaderFacts.
Variable int_of_string : string → option Z.

(** The loader, case by case. *)
Lemma read_mapping_present location keys_as_int upd s mapping :
  files s !! location = Some mapping →
  read_mapping int_of_string location keys_as_int upd s
  = ((if keys_as_int then coerce_keys int_of_string mapping else Ok mapping), s).
Proof.
  intros Hf. unfold read_mapping, bind, store_exists, store_read.
  rewrite Hf. rewrite bool_decide_true by (by eexists).
  rewrite Hf. by destruct keys_as_int.
Qed.

Lemma read_mapping_absent location keys_as_int upd s :
  files s !! location = None →
  read_mapping int_of_string location keys_as_int upd s
  = match upd s with
    | (Ok _, s1) =>
        match files s1 !! location with
        | Some mapping =>
            ((if keys_as_int then coerce_keys int_of_string mapping
              else Ok mapping), s1)
        | None => (Err UpdateFailedError, s1)
        end
    | (Err e, s1) => (Err e, s1)
    end.
Proof.
  intros Hf. unfold read_mapping, bind, store_exists, store_read, raise.
  rewrite Hf. rewrite bool_decide_false by (by intros [? ?]).
  destruct (upd s) as [[[]|e] s1]; [|done].
  destruct (files s1 !! location) as [mapping|] eqn:Hf1.
  - rewrite bool_decide_true by (by eexists).
    rewrite Hf1. by destruct keys_as_int.
  - rewrite bool_decide_false by (by intros [? ?]). done.
Qed.

(** A load with integer keys yields a valid dictionary of integer keys. *)
Lemma read_mapping_int_keys location upd s mapping s' :
  read_mapping int_of_string location true upd s = (Ok mapping, s') →
  PyDict.wf mapping ∧ Forall int_key (PyDict.keys mapping).
Proof.
  unfold read_mapping. intros Hrun.
  apply bind_inv_Ok in Hrun. destruct Hrun as (present & s1 & _ & Hrun).
  apply bind_inv_Ok in Hrun. destruct Hrun as (raw & s2 & _ & Hrun).
  unfold lift_result in Hrun. injection Hrun as Hc _. split.
  - eapply coerce_items_wf; [|exact Hc]. apply NoDup_nil_2.
  - eapply coerce_items_int; [|exact Hc]. apply Forall_nil_2.
Qed.
End LoaderFacts.

(** ** The merged area-code mapping *)

Section AreaCodeMapping.
Variable schemas : Path.
Variable remote : string → fetch_outcome.
Variable int_of_string : string → option Z.
Variable dac_to_area_codes : xml → Mapping.

(** [area_code_mapping] is the two loads, base first, then the merge. *)
Lemma area_code_mapping_inv s merged s' :
  Dac2Translation.area_code_mapping
    schemas remote int_of_string dac_to_area_codes s = (Ok merged, s') →
  ∃ base corrections s1,
    read_mapping int_of_string (path_join schemas "dac2_codes_area.json") true
      (Dac2Translation.update_dac2_translation_mappings
         schemas remote dac_to_area_codes) s = (Ok base, s1)
    ∧ read_mapping int_of_string
        (path_join schemas "area_code_corrections.json") true
        (Dac2Translation.update_dac2_translation_mappings
           schemas remote dac_to_area_codes) s1 = (Ok corrections, s')
    ∧ merged = PyDict.union base corrections.
Proof.
  unfold Dac2Translation.area_code_mapping. intros Hrun.
  apply bind_inv_Ok in Hrun. destruct Hrun as (p1 & s0 & Hp1 & Hrun).
  unfold lift_result in Hp1. rewrite MAPPINGS_base in Hp1.
  injection Hp1 as <- <-.
  apply bind_inv_Ok in Hrun. destruct Hrun as (base & s1 & Hbase & Hrun).
  apply bind_inv_Ok in Hrun. destruct Hrun as (p2 & s2 & Hp2 & Hrun).
  unfold lift_result in Hp2. rewrite MAPPINGS_corrections in Hp2.
  injection Hp2 as <- <-.
  apply bind_inv_Ok in Hrun. destruct Hrun as (corr & s3 & Hcorr & Hrun).
  unfold ret in Hrun. injection Hrun as <- <-.
  by exists base, corr, s1.
Qed.

(** C1.  Whenever [area_code_mapping] returns a mapping, it is the merge of
    the base mapping and the correction mapping it loaded: a key of the
    correction mapping has the correction's value, any other key has the
    base mapping's value, and the keys are those of the two mappings
    together. *)
Theorem area_code_mapping_corrections_win s merged s' :
  Dac2Translation.area_code_mapping
    schemas remote int_of_string dac_to_area_codes s = (Ok merged, s') →
  ∃ base corrections s1,
    read_mapping int_of_string (path_join schemas "dac2_codes_area.json") true
      (Dac2Translation.update_dac2_translation_mappings
         schemas remote dac_to_area_codes) s = (Ok base, s1)
    ∧ read_mapping int_of_string
        (path_join schemas "area_code_corrections.json") true
        (Dac2Translation.update_dac2_translation_mappings
           schemas remote dac_to_area_codes) s1 = (Ok corrections, s')
    ∧ (∀ k v, PyDict.get corrections k = Some v →
              PyDict.get merged k = Some v)
    ∧ (∀ k, PyDict.get corrections k = None →
            PyDict.get merged k = PyDict.get base k)
    ∧ (∀ k, k ∈ PyDict.keys merged
            ↔ k ∈ PyDict.keys base ∨ k ∈ PyDict.keys corrections).
Proof.
  intros Hrun. apply area_code_mapping_inv in Hrun.
  destruct Hrun as (base & corr & s1 & Hbase & Hcorr & ->).
  exists base, corr, s1. split; [done|]. split; [done|].
  apply read_mapping_int_keys in Hcorr. destruct Hcorr as [Hwf _].
  unfold PyDict.union. split; [|split].
  - intros k v Hk. by apply get_update_Some.
  - intros k Hk. by apply get_update_None.
  - intros k. apply keys_update.
Qed.

(** C8.  A mapping returned by [area_code_mapping] has integer keys only;
    a string key that is not an integer, in the base file or in the
    correction file, makes the call fail with [KeyCoercionError]; and a
    load that does not ask for integer keys never fails with it. *)
Theorem area_code_mapping_integer_keys :
  (∀ s merged s',
     Dac2Translation.area_code_mapping
       schemas remote int_of_string dac_to_area_codes s = (Ok merged, s') →
     ∀ k, k ∈ PyDict.keys merged → ∃ z, k = CInt z)
  ∧ (∀ s raw key,
       files s !! path_join schemas "dac2_codes_area.json" = Some raw →
       CStr key ∈ PyDict.keys raw → int_of_string key = None →
       Dac2Translation.area_code_mapping
         schemas remote int_of_string dac_to_area_codes s
       = (Err KeyCoercionError, s))
  ∧ (∀ s base s1 raw key,
       read_mapping int_of_string (path_join schemas "dac2_codes_area.json")
         true
         (Dac2Translation.update_dac2_translation_mappings
            schemas remote dac_to_area_codes) s = (Ok base, s1) →
       files s1 !! path_join schemas "area_code_corrections.json" = Some raw →
       CStr key ∈ PyDict.keys raw → int_of_string key = None →
       Dac2Translation.area_code_mapping
         schemas remote int_of_string dac_to_area_codes s
       = (Err KeyCoercionError, s1))
  ∧ (∀ location s r s',
       read_mapping int_of_string location false
         (Dac2Translation.update_dac2_translation_mappings
            schemas remote dac_to_area_codes) s = (r, s') →
       r ≠ Err KeyCoercionError).
Proof.
  split; [|split; [|split]].
  - intros s merged s' Hrun k Hk. apply area_code_mapping_inv in Hrun.
    destruct Hrun as (base & corr & s1 & Hbase & Hcorr & ->).
    apply read_mapping_int_keys in Hbase. destruct Hbase as [_ Hb].
    apply read_mapping_int_keys in Hcorr. destruct Hcorr as [_ Hc].
    apply keys_update in Hk. destruct Hk as [Hk|Hk].
    + by eapply Forall_forall in Hb.
    + by eapply Forall_forall in Hc.
  - intros s raw key Hfile Hkey Hbad.
    unfold Dac2Translation.area_code_mapping.
    erewrite bind_Ok by (unfold lift_result; by rewrite MAPPINGS_base).
    apply bind_Err. rewrite (read_mapping_present _ _ _ _ _ raw) by done.
    unfold coerce_keys. by erewrite coerce_items_bad.
  - intros s base s1 raw key Hbase Hfile Hkey Hbad.
    unfold Dac2Translation.area_code_mapping.
    erewrite bind_Ok by (unfold lift_result; by rewrite MAPPINGS_base).
    erewrite bind_Ok by exact Hbase.
    erewrite bind_Ok by (unfold lift_result; by rewrite MAPPINGS_corrections).
    apply bind_Err. rewrite (read_mapping_present _ _ _ _ _ raw) by done.
    unfold coerce_keys. by erewrite coerce_items_bad.
  - intros location s r s' Hrun ->.
    destruct (files s !! location) as [raw|] eqn:Hfile.
    + rewrite (read_mapping_present _ _ _ _ _ raw) in Hrun by done.
      discriminate Hrun.
    + rewrite read_mapping_absent in Hrun by done.
      destruct (Dac2Translation.update_dac2_translation_mappings _ _ _ s)
        as [[[]|e] s1] eqn:Hupd.
      * destruct (files s1 !! location); discriminate Hrun.
      * injection Hrun as -> _.
        apply update_raises in Hupd.
        unfold update_error in Hupd.
        destruct Hupd as [?|[?|[?|?]]]; discriminate.
Qed.
End AreaCodeMapping.

(** ** The update pipeline and the correction file *)

Section Corrections.
Variable schemas : Path.
Variable remote : string → fetch_outcome.
Variable int_of_string : string → option Z.
Variable dac_to_area_codes : xml → Mapping.

(** C9.  Whatever it returns, [update_dac2_translation_mappings] leaves
    every file other than the base area-code mapping as it was: the
    correction file is neither written nor created.  So does a load of
    the correction mapping, which has the pipeline as its update. *)
Theorem update_writes_only_base (s : Store) :
  (∀ location,
     location ≠ path_join schemas "dac2_codes_area.json" →
     files (Dac2Translation.update_dac2_translation_mappings
              schemas remote dac_to_area_codes s).2 !! location
     = files s !! location)
  ∧ files (Dac2Translation.update_dac2_translation_mappings
             schemas remote dac_to_area_codes s).2
      !! path_join schemas "area_code_corrections.json"
    = files s !! path_join schemas "area_code_corrections.json"
  ∧ files (read_mapping int_of_string
             (path_join schemas "area_code_corrections.json") true
             (Dac2Translation.update_dac2_translation_mappings
                schemas remote dac_to_area_codes) s).2
      !! path_join schemas "area_code_corrections.json"
    = files s !! path_join schemas "area_code_corrections.json".
Proof.
  assert (Hcorr :
    files (Dac2Translation.update_dac2_translation_mappings
             schemas remote dac_to_area_codes s).2
      !! path_join schemas "area_code_corrections.json"
    = files s !! path_join schemas "area_code_corrections.json").
  { apply update_files_other.
    intros Heq. by apply (paths_distinct schemas). }
  split; [|split; [exact Hcorr|]].
  - intros location Hne. by apply update_files_other.
  - destruct (files s !! path_join schemas "area_code_corrections.json")
      as [raw|] eqn:Hfile.
    + rewrite (read_mapping_present _ _ _ _ _ raw) by done. by simpl.
    + rewrite read_mapping_absent by done.
      destruct (Dac2Translation.update_dac2_translation_mappings _ _ _ s)
        as [[[]|e] s1]; simpl in *; [|done].
      by destruct (files s1 !! _) eqn:Hfile1.
Qed.

(** C2, as the code has it.  When the base mapping loads and the
    correction file is absent, [area_code_mapping] runs the update
    pipeline for the correction mapping: the schema document is requested
    once more, the correction file is still absent afterwards, and the
    call fails, with [UpdateFailedError] when the pipeline succeeded and
    with the pipeline's own error otherwise, never with
    [MissingCorrectionsError]. *)
Theorem corrections_absent_runs_update s base s1 :
  read_mapping int_of_string (path_join schemas "dac2_codes_area.json") true
    (Dac2Translation.update_dac2_translation_mappings
       schemas remote dac_to_area_codes) s = (Ok base, s1) →
  files s1 !! path_join schemas "area_code_corrections.json" = None →
  ∃ e s2,
    Dac2Translation.area_code_mapping
      schemas remote int_of_string dac_to_area_codes s = (Err e, s2)
    ∧ Dac2Translation.update_dac2_translation_mappings
        schemas remote dac_to_area_codes s1
      = (match e with UpdateFailedError => Ok tt | _ => Err e end, s2)
    ∧ fetched s2 = Dac2Translation.DAC2_TRANSLATION_SCHEMA_URL :: fetched s1
    ∧ files s2 !! path_join schemas "area_code_corrections.json" = None
    ∧ e ≠ MissingCorrectionsError.
Proof.
  intros Hbase Hfile.
  pose proof (update_fetched schemas remote dac_to_area_codes s1)
    as Hfetched.
  pose proof (update_files_other schemas remote dac_to_area_codes s1
                (path_join schemas "area_code_corrections.json")) as Hother.
  rewrite Hfile in Hother.
  specialize (Hother (fun Heq => paths_distinct schemas (eq_sym Heq))).
  unfold Dac2Translation.area_code_mapping.
  erewrite bind_Ok by (unfold lift_result; by rewrite MAPPINGS_base).
  erewrite bind_Ok by exact Hbase.
  erewrite bind_Ok by (unfold lift_result; by rewrite MAPPINGS_corrections).
  unfold bind at 1. rewrite read_mapping_absent by done.
  destruct (Dac2Translation.update_dac2_translation_mappings _ _ _ s1)
    as [[[]|e] s2] eqn:Hupd; simpl in Hfetched, Hother.
  - rewrite Hother. exists UpdateFailedError, s2. by repeat split.
  - exists e, s2. apply update_raises in Hupd.
    unfold update_error in Hupd.
    destruct Hupd as [-> | [-> | [-> | ->]]]; by repeat split.
Qed.
End Corrections.

(** ** Data frames *)

Section FrameFacts.
Lemma keeps_frames_bind {A B : Type} (m : M World A) (k : A → M World B) :
  keeps_frames m → (∀ a, keeps_frames (k a)) → keeps_frames (bind m k).
Proof.
  intros Hm Hk w. unfold bind. destruct (Hm w) as [c1 Hc1].
  destruct (m w) as [[a|e] w1]; simpl in Hc1.
  - destruct (Hk a w1) as [c2 Hc2]. exists (c1 ++ c2).
    by rewrite Hc2, Hc1, app_assoc.
  - by exists c1.
Qed.

Lemma keeps_frames_ret {A : Type} (a : A) : keeps_frames (ret a).
Proof. intros w. exists []. simpl. by rewrite app_nil_r. Qed.

Lemma keeps_frames_lift_store {A : Type} (m : M Store A) :
  keeps_frames (lift_store m).
Proof.
  intros w. exists []. by rewrite lift_store_frames, app_nil_r.
Qed.

Lemma keeps_frames_read df : keeps_frames (frame_read df).
Proof.
  intros w. exists []. unfold frame_read.
  destruct (frames w !! df); simpl; by rewrite app_nil_r.
Qed.

Lemma keeps_frames_new rows : keeps_frames (frame_new rows).
Proof. intros w. by exists [rows]. Qed.

Lemma keeps_frames_map_area_codes df mapping source target :
  keeps_frames (map_area_codes df mapping source target).
Proof.
  apply keeps_frames_bind; [apply keeps_frames_read|].
  intros rows. apply keeps_frames_new.
Qed.

Lemma keeps_frames_map_amount_type_codes df mapping source target :
  keeps_frames (map_amount_type_codes df mapping source target).
Proof.
  apply keeps_frames_bind; [apply keeps_frames_read|].
  intros rows. apply keeps_frames_new.
Qed.

Lemma keeps_frames_lookup {A : Type} (m : M World A) w j old :
  keeps_frames m → frames w !! j = Some old → frames (m w).2 !! j = Some old.
Proof.
  intros Hm Hj. destruct (Hm w) as [created ->]. by apply lookup_app_l_Some.
Qed.

(** A translator call on a live data frame. *)
Lemma map_area_codes_run df mapping source target w rows :
  frames w !! df = Some rows →
  map_area_codes df mapping source target w
  = (Ok (length (frames w)),
     mkWorld (store w)
       (frames w ++ [translate rows mapping source target]) (log w)).
Proof.
  intros Hdf. unfold map_area_codes, bind, frame_read. by rewrite Hdf.
Qed.

Lemma map_area_codes_inv df mapping source target w out w' :
  map_area_codes df mapping source target w = (Ok out, w') →
  ∃ rows,
    frames w !! df = Some rows ∧ out = length (frames w)
    ∧ w' = mkWorld (store w)
             (frames w ++ [translate rows mapping source target]) (log w).
Proof.
  unfold map_area_codes, bind, frame_read.
  destruct (frames w !! df) as [rows|]; [|done].
  unfold frame_new. intros [= <- <-]. by exists rows.
Qed.

Lemma map_amount_type_codes_eq df mapping source target :
  map_amount_type_codes df mapping source target
  = map_area_codes df mapping source target.
Proof. reflexivity. Qed.

(** The translator on one row. *)
Lemma translate_row_other mapping source target (row : Row) column :
  column ≠ target →
  translate_row mapping source target row !! column = row !! column.
Proof.
  intros Hne. unfold translate_row.
  destruct (row !! source); [|done]. by rewrite lookup_insert_ne.
Qed.

Lemma translate_row_target mapping column (row : Row) v :
  row !! column = Some v →
  translate_row mapping column column row !! column
  = Some (PyDict.get_default mapping v v).
Proof.
  intros Hv. unfold translate_row. rewrite Hv. by rewrite lookup_insert_eq.
Qed.

Lemma translate_length rows mapping source target :
  length (translate rows mapping source target) = length rows.
Proof. unfold translate. apply length_fmap. Qed.

Lemma translate_lookup rows mapping source target i :
  translate rows mapping source target !! i
  = translate_row mapping source target <$> rows !! i.
Proof. unfold translate. apply list_lookup_fmap. Qed.

End FrameFacts.

(** ** [convert_to_dotstat_codes] *)

Section Convert.
Variable schemas : Path.
Variable remote : string → fetch_outcome.
Variable int_of_string : string → option Z.
Variable dac_to_area_codes : xml → Mapping.
Variable prices_mapping : M Store Mapping.

(** The three translations of the rows, in the order of the code. *)
Lemma convert_run w df rows area_codes s1 prices s2 :
  frames w !! df = Some rows →
  Dac2Translation.area_code_mapping
    schemas remote int_of_string dac_to_area_codes (store w)
  = (Ok area_codes, s1) →
  prices_mapping s1 = (Ok prices, s2) →
  Dac2Translation.convert_to_dotstat_codes
    schemas remote int_of_string dac_to_area_codes prices_mapping df w
  = (Ok (length (frames w) + 2),
     let donors := translate rows area_codes donor_code donor_code in
     let recipients :=
       translate donors area_codes "recipient_code" "recipient_code" in
     let amounts :=
       translate recipients (invert prices)
         "data_type_code" "data_type_code" in
     mkWorld s2 (frames w ++ [donors; recipients; amounts]) (log w)).
Proof.
  intros Hdf Harea Hprices. unfold Dac2Translation.convert_to_dotstat_codes.
  erewrite bind_Ok by (by apply lift_store_Ok).
  erewrite bind_Ok by (by apply lift_store_Ok).
  erewrite bind_Ok by (by apply map_area_codes_run).
  erewrite bind_Ok.
  2:{ apply map_area_codes_run. simpl. by apply list_lookup_middle. }
  erewrite bind_Ok.
  2:{ rewrite map_amount_type_codes_eq. apply map_area_codes_run. simpl.
      rewrite length_app. simpl.
      rewrite (lookup_app_r _ _ (length (frames w) + 1)) by
        (rewrite length_app; simpl; lia).
      rewrite length_app. simpl.
      by replace (length (frames w) + 1 - (length (frames w) + 1)) with 0
        by lia. }
  unfold ret. simpl. rewrite !length_app. simpl.
  rewrite <- !app_assoc. simpl.
  by replace (length (frames w) + 1 + 1) with (length (frames w) + 2) by lia.
Qed.

Lemma convert_inv w df out w' :
  Dac2Translation.convert_to_dotstat_codes
    schemas remote int_of_string dac_to_area_codes prices_mapping df w
  = (Ok out, w') →
  ∃ rows area_codes s1 prices s2,
    frames w !! df = Some rows
    ∧ Dac2Translation.area_code_mapping
        schemas remote int_of_string dac_to_area_codes (store w)
      = (Ok area_codes, s1)
    ∧ prices_mapping s1 = (Ok prices, s2).
Proof.
  unfold Dac2Translation.convert_to_dotstat_codes. intros Hrun.
  apply bind_inv_Ok in Hrun. destruct Hrun as (area & w1 & Harea & Hrun).
  apply bind_inv_Ok in Hrun. destruct Hrun as (prices & w2 & Hprices & Hrun).
  apply bind_inv_Ok in Hrun. destruct Hrun as (df1 & w3 & Hdonor & _).
  apply map_area_codes_inv in Hdonor. destruct Hdonor as (rows & Hdf & _).
  unfold lift_store in Harea, Hprices.
  destruct (Dac2Translation.area_code_mapping _ _ _ _ (store w))
    as [r1 s1] eqn:Ha.
  injection Harea as -> <-. simpl in Hprices, Hdf.
  destruct (prices_mapping s1) as [r2 s2] eqn:Hp.
  injection Hprices as -> <-. simpl in Hdf.
  by exists rows, area, s1, prices, s2.
Qed.

Lemma convert_keeps_frames df :
  keeps_frames
    (Dac2Translation.convert_to_dotstat_codes
       schemas remote int_of_string dac_to_area_codes prices_mapping df).
Proof.
  unfold Dac2Translation.convert_to_dotstat_codes.
  apply keeps_frames_bind; [apply keeps_frames_lift_store|]. intros area.
  apply keeps_frames_bind; [apply keeps_frames_lift_store|]. intros prices.
  apply keeps_frames_bind; [apply keeps_frames_map_area_codes|]. intros df1.
  apply keeps_frames_bind; [apply keeps_frames_map_area_codes|]. intros df2.
  apply keeps_frames_bind; [apply keeps_frames_map_amount_type_codes|].
  intros df3. apply keeps_frames_ret.
Qed.

(** The cells of a row after the three translations. *)
Lemma converted_row area_codes inverted (row : Row) :
  let row' :=
    translate_row inverted "data_type_code" "data_type_code"
      (translate_row area_codes "recipient_code" "recipient_code"
         (translate_row area_codes donor_code donor_code row)) in
  (∀ v, row !! donor_code = Some v →
        row' !! donor_code = Some (PyDict.get_default area_codes v v))
  ∧ (∀ v, row !! "recipient_code" = Some v →
          row' !! "recipient_code"
          = Some (PyDict.get_default area_codes v v))
  ∧ (∀ v, row !! "data_type_code" = Some v →
          row' !! "data_type_code"
          = Some (PyDict.get_default inverted v v))
  ∧ (∀ column, column ≠ donor_code → column ≠ "recipient_code" →
               column ≠ "data_type_code" → row' !! column = row !! column).
Proof.
  simpl. repeat split.
  - intros v Hv. rewrite !translate_row_other by done.
    by apply translate_row_target.
  - intros v Hv. rewrite translate_row_other by done.
    apply translate_row_target. by rewrite translate_row_other.
  - intros v Hv. apply translate_row_target.
    by rewrite !translate_row_other.
  - intros column H1 H2 H3. by rewrite !translate_row_other.
Qed.
End Convert.

Section ColumnFacts.
Implicit Types (mapping : Mapping) (rows : DataFrame) (row : Row).



End ColumnFacts.

Section ConvertClaims.
Variable schemas : Path.
Variable remote : string → fetch_outcome.
Variable int_of_string : string → option Z.
Variable dac_to_area_codes : xml → Mapping.
Variable prices_mapping : M Store Mapping.


(** C6.  [convert_to_dotstat_codes] leaves every data frame that exists,
    the caller's among them, as it was, whether it returns or raises.
    With the two mappings loaded it returns, and the data frame it returns
    is another object with as many rows as the input, in the same order:
    row [i] of the result is row [i] of the input, equal to it on every
    column other than the donor-code, the recipient-code and the
    amount-type column. *)
Theorem convert_to_dotstat_codes_frame w df rows :
  frames w !! df = Some rows →
  (∀ j old, frames w !! j = Some old →
     frames (Dac2Translation.convert_to_dotstat_codes
               schemas remote int_of_string dac_to_area_codes
               prices_mapping df w).2 !! j = Some old)
  ∧ (∀ out w',
       Dac2Translation.convert_to_dotstat_codes
         schemas remote int_of_string dac_to_area_codes prices_mapping df w
       = (Ok out, w') →
       out ≠ df
       ∧ ∃ rows' : DataFrame,
           frames w' !! out = Some rows'
           ∧ length rows' = length rows
           ∧ ∀ i (row : Row), rows !! i = Some row →
               ∃ row' : Row,
                 rows' !! i = Some row'
                 ∧ ∀ column,
                     column ≠ donor_code → column ≠ "recipient_code" →
                     column ≠ "data_type_code" →
                     row' !! column = row !! column)
  ∧ (∀ area_codes s1 prices s2,
       Dac2Translation.area_code_mapping
         schemas remote int_of_string dac_to_area_codes (store w)
       = (Ok area_codes, s1) →
       prices_mapping s1 = (Ok prices, s2) →
       ∃ out w',
         Dac2Translation.convert_to_dotstat_codes
           schemas remote int_of_string dac_to_area_codes prices_mapping df w
         = (Ok out, w')).
Proof.
  intros Hdf. split; [|split].
  - intros j old Hj.
    by apply keeps_frames_lookup; [apply convert_keeps_frames|].
  - intros out w' Hrun. pose proof Hrun as Hinv.
    apply convert_inv in Hinv.
    destruct Hinv as (rows0 & area & s1 & prices & s2 & Hdf0 & Ha & Hp).
    rewrite Hdf in Hdf0. injection Hdf0 as <-.
    rewrite (convert_run _ _ _ _ _ _ _ _ _ _ _ _ Hdf Ha Hp) in Hrun.
    injection Hrun as <- <-. split.
    { apply lookup_lt_Some in Hdf. lia. }
    eexists. split.
    { simpl. rewrite lookup_app_r by lia.
      by replace (length (frames w) + 2 - length (frames w)) with 2 by lia. }
    split; [by rewrite !translate_length|].
    intros i row Hrow. rewrite !translate_lookup, Hrow. simpl.
    eexists. split; [done|].
    by destruct (converted_row area (invert prices) row) as (_ & _ & _ & Ho).
  - intros area s1 prices s2 Ha Hp. eexists _, _. by eapply convert_run.
Qed.
End ConvertClaims.

(** ** Inversion of the price mapping *)

(** C7.  Inverting a one-to-one mapping twice gives the mapping back, items
    in their order. *)
Theorem invert_round_trip (d : Mapping) :
  PyDict.wf d → one_to_one d → invert (invert d) = d.
Proof.
  intros Hwf Hinj. apply one_to_one_values in Hinj; [|done].
  rewrite (invert_distinct d) by done.
  rewrite invert_distinct by (by rewrite values_swap).
  apply swap_swap.
Qed.

(** C3, as the code has it.  The inversion is a dictionary comprehension and
    never fails: the inverted mapping is a valid dictionary whose keys are
    the values of the price mapping, and a value maps to the last key that
    has it in the order of the price mapping. *)
Theorem invert_last_key_wins (prices : Mapping) :
  PyDict.wf (invert prices)
  ∧ (∀ v, v ∈ PyDict.keys (invert prices) ↔ v ∈ PyDict.values prices)
  ∧ (∀ before after k v,
       prices = before ++ ((k, v) :: after) → v ∉ PyDict.values after →
       PyDict.get (invert prices) v = Some k).
Proof.
  split; [|split].
  - unfold invert.
    assert (Hfold : ∀ acc : Mapping, PyDict.wf acc →
      PyDict.wf (fold_left (fun a kv => PyDict.set a kv.2 kv.1) prices acc)).
    { induction prices as [|[k v] rest IH]; simpl; intros acc Hacc; [done|].
      apply IH. by apply (wf_set acc). }
    apply Hfold. apply NoDup_nil_2.
  - intros v. unfold invert. rewrite keys_invert_from.
    change (PyDict.keys (@nil (code * code))) with (@nil code).
    rewrite elem_of_nil. tauto.
  - intros before after k v -> Hlast. unfold invert.
    rewrite fold_left_app. simpl.
    rewrite get_invert_from_absent by done. apply get_set_eq.
Qed.

(** ** [download_dac1] without preprocessing *)

Section DownloadDac1.
Variables SchemaTranslation Dtypes QueryBuilder : Type.
Variable read_schema_translation : M World SchemaTranslation.
Variable get_dtypes : SchemaTranslation → result Dtypes.
Variable new_query_builder : string → result QueryBuilder.
Variable build_dac1_filter :
  QueryBuilder → PyDict.dict string code → result string.
Variable set_filter : QueryBuilder → string → result QueryBuilder.
Variable set_time_period :
  QueryBuilder → option Z → option Z → result QueryBuilder.
Variable build_query : QueryBuilder → result string.
Variable api_response_to_df :
  string → Dac1.ReadCsvOptions Dtypes → M World nat.
Variable preprocess : nat → SchemaTranslation → M World nat.
Variable convert_to_dotstat_codes : nat → M World nat.

Local Abbreviation download_dac1 :=
  (Dac1.download_dac1 SchemaTranslation Dtypes QueryBuilder
     read_schema_translation get_dtypes new_query_builder build_dac1_filter
     set_filter set_time_period build_query api_response_to_df preprocess
     convert_to_dotstat_codes).
Local Abbreviation query_url :=
  (Dac1.query_url QueryBuilder new_query_builder build_dac1_filter
     set_filter set_time_period build_query).

(** The call without preprocessing, step by step. *)
Lemma download_dac1_raw_run start_year end_year download_filters
    dotstat_codes w :
  download_dac1 start_year end_year download_filters false dotstat_codes w
  = match read_schema_translation w with
    | (Ok schema_translation, w1) =>
        match get_dtypes schema_translation with
        | Ok data_types =>
            let w1' :=
              mkWorld (store w1) (frames w1)
                ("Downloading DAC1 data. This may take a while..."
                   :: log w1) in
            match query_url start_year end_year download_filters with
            | Ok url =>
                match
                  api_response_to_df url
                    (Dac1.mkReadCsvOptions Dtypes ["_Z"; "nan"] true
                       data_types) w1'
                with
                | (Ok df, w2) =>
                    if dotstat_codes then
                      (Err (ValueError
                         "Cannot convert to dotstat codes without preprocessing."),
                       w2)
                    else
                      (Ok df,
                       mkWorld (store w2) (frames w2)
                         ("Data downloaded correctly." :: log w2))
                | (Err e, w2) => (Err e, w2)
                end
            | Err e => (Err e, w1')
            end
        | Err e => (Err e, w1)
        end
    | (Err e, w1) => (Err e, w1)
    end.
Proof.
  unfold Dac1.download_dac1, Dac1.query_url,
    bind, lift_result, logger_info, ret, raise.
  destruct (read_schema_translation w) as [[schema|e] w1]; [|done].
  destruct (get_dtypes schema) as [data_types|e]; [|done].
  destruct (new_query_builder Dac1.DATAFLOW_ID) as [qb0|e]; [|done].
  destruct (Dac1.truthy download_filters).
  - destruct (build_dac1_filter _ _) as [filter_str|e]; [|done].
    destruct (set_filter _ _) as [qb1|e]; [|done].
    destruct (set_time_period _ _ _) as [qb|e]; [|done].
    destruct (build_query qb) as [url|e]; [|done].
    destruct (api_response_to_df _ _ _) as [[df|e] w2]; [|done].
    by destruct dotstat_codes.
  - destruct (set_time_period _ _ _) as [qb|e]; [|done].
    destruct (build_query qb) as [url|e]; [|done].
    destruct (api_response_to_df _ _ _) as [[df|e] w2]; [|done].
    by destruct dotstat_codes.
Qed.

(** C5, as the code has it.  A call with [pre_process] false and
    [dotstat_codes] true never
    returns a data frame.  Once the download has succeeded it raises
    [ValueError] with the message that dotstat codes need preprocessing,
    in the state the download left: nothing is translated and nothing
    more is logged. *)
Theorem download_dac1_raw_dotstat_fails start_year end_year
    download_filters w :
  (∃ e, (download_dac1 start_year end_year download_filters false true w).1
        = Err e)
  ∧ ∀ schema_translation w1 data_types url df w2,
      read_schema_translation w = (Ok schema_translation, w1) →
      get_dtypes schema_translation = Ok data_types →
      query_url start_year end_year download_filters = Ok url →
      api_response_to_df url
        (Dac1.mkReadCsvOptions Dtypes ["_Z"; "nan"] true data_types)
        (mkWorld (store w1) (frames w1)
           ("Downloading DAC1 data. This may take a while..." :: log w1))
      = (Ok df, w2) →
      download_dac1 start_year end_year download_filters false true w
      = (Err (ValueError
                "Cannot convert to dotstat codes without preprocessing."),
         w2).
Proof.
  rewrite download_dac1_raw_run. split.
  - destruct (read_schema_translation w) as [[schema|e] w1]; [|by eexists].
    destruct (get_dtypes schema) as [data_types|e]; [|by eexists].
    simpl. destruct (query_url _ _ _) as [url|e]; [|by eexists].
    destruct (api_response_to_df _ _ _) as [[df|e] w2]; by eexists.
  - intros schema w1 data_types url df w2 Hschema Hdtypes Hurl Hdf.
    rewrite Hschema, Hdtypes. simpl. by rewrite Hurl, Hdf.
Qed.

(** C10, as the code has it.  A call with [pre_process] and
    [dotstat_codes] both false, once
    the download has succeeded, returns the downloaded data frame itself:
    the state is the one the download left, with the closing message
    logged; no preprocessing, no translation, no error. *)
Theorem download_dac1_raw_returns_download start_year end_year
    download_filters w schema_translation w1 data_types url df w2 :
  read_schema_translation w = (Ok schema_translation, w1) →
  get_dtypes schema_translation = Ok data_types →
  query_url start_year end_year download_filters = Ok url →
  api_response_to_df url
    (Dac1.mkReadCsvOptions Dtypes ["_Z"; "nan"] true data_types)
    (mkWorld (store w1) (frames w1)
       ("Downloading DAC1 data. This may take a while..." :: log w1))
  = (Ok df, w2) →
  download_dac1 start_year end_year download_filters false false w
  = (Ok df,
     mkWorld (store w2) (frames w2) ("Data downloaded correctly." :: log w2)).
Proof.
  intros Hschema Hdtypes Hurl Hdf. rewrite download_dac1_raw_run.
  rewrite Hschema, Hdtypes. simpl. by rewrite Hurl, Hdf.
Qed.
End DownloadDac1.

(** ** The scenario, run *)

Lemma scenario_area_code_mapping :
  Scenario.area_code_mapping Scenario.disk = (Ok Scenario.merged, Scenario.disk).
Proof. vm_compute. reflexivity. Defined.

Lemma scenario_base_load :
  read_mapping Scenario.decimal
    (path_join Scenario.schemas "dac2_codes_area.json") true
    (Dac2Translation.update_dac2_translation_mappings
       Scenario.schemas Scenario.remote Scenario.dac_to_area_codes)
    Scenario.disk_without_corrections
  = (Ok [(CInt 1, CStr "A"); (CInt 2, CStr "B")],
     Scenario.disk_without_corrections).
Proof. vm_compute. reflexivity. Defined.

(** The merge of the specification's scenario: base [{1: A, 2: B}] and
    corrections [{2: B2, 3: C}]. *)
Lemma area_code_mapping_corrections_win_witness :
  ∃ base corrections s1,
    read_mapping Scenario.decimal
      (path_join Scenario.schemas "dac2_codes_area.json") true
      (Dac2Translation.update_dac2_translation_mappings
         Scenario.schemas Scenario.remote Scenario.dac_to_area_codes)
      Scenario.disk = (Ok base, s1)
    ∧ read_mapping Scenario.decimal
        (path_join Scenario.schemas "area_code_corrections.json") true
        (Dac2Translation.update_dac2_translation_mappings
           Scenario.schemas Scenario.remote Scenario.dac_to_area_codes)
        s1 = (Ok corrections, Scenario.disk)
    ∧ (∀ k v, PyDict.get corrections k = Some v →
              PyDict.get Scenario.merged k = Some v)
    ∧ (∀ k, PyDict.get corrections k = None →
            PyDict.get Scenario.merged k = PyDict.get base k)
    ∧ (∀ k, k ∈ PyDict.keys Scenario.merged
            ↔ k ∈ PyDict.keys base ∨ k ∈ PyDict.keys corrections).
Proof.
  exact (area_code_mapping_corrections_win
           Scenario.schemas Scenario.remote Scenario.decimal
           Scenario.dac_to_area_codes Scenario.disk Scenario.merged
           Scenario.disk scenario_area_code_mapping).
Defined.

(** The key ["two"] of the base file is not an integer. *)
Lemma area_code_mapping_integer_keys_witness :
  files Scenario.disk_bad_key !! path_join Scenario.schemas "dac2_codes_area.json"
  = Some Scenario.bad_file
  ∧ CStr "two" ∈ PyDict.keys Scenario.bad_file
  ∧ Scenario.decimal "two" = None
  ∧ Scenario.area_code_mapping Scenario.disk_bad_key
    = (Err KeyCoercionError, Scenario.disk_bad_key).
Proof.
  assert (Hfile : files Scenario.disk_bad_key
                    !! path_join Scenario.schemas "dac2_codes_area.json"
                  = Some Scenario.bad_file) by (vm_compute; reflexivity).
  assert (Hkey : CStr "two" ∈ PyDict.keys Scenario.bad_file)
    by (simpl; right; left).
  assert (Hbad : Scenario.decimal "two" = None) by (vm_compute; reflexivity).
  split; [exact Hfile|]. split; [exact Hkey|]. split; [exact Hbad|].
  exact (proj1 (proj2 (area_code_mapping_integer_keys
           Scenario.schemas Scenario.remote Scenario.decimal
           Scenario.dac_to_area_codes))
           Scenario.disk_bad_key Scenario.bad_file "two" Hfile Hkey Hbad).
Defined.

(** The correction file leaves the update pipeline untouched. *)
Lemma update_writes_only_base_witness :
  path_join Scenario.schemas "area_code_corrections.json"
  ≠ path_join Scenario.schemas "dac2_codes_area.json"
  ∧ files (Scenario.update Scenario.disk).2
      !! path_join Scenario.schemas "area_code_corrections.json"
    = files Scenario.disk !! path_join Scenario.schemas "area_code_corrections.json".
Proof.
  assert (Hne : path_join Scenario.schemas "area_code_corrections.json"
                ≠ path_join Scenario.schemas "dac2_codes_area.json")
    by (vm_compute; discriminate).
  split; [exact Hne|].
  exact (proj1 (update_writes_only_base
           Scenario.schemas Scenario.remote Scenario.decimal
           Scenario.dac_to_area_codes Scenario.disk)
           (path_join Scenario.schemas "area_code_corrections.json") Hne).
Defined.

(** With the correction file missing the pipeline runs and the load fails. *)
Lemma corrections_absent_runs_update_witness :
  files Scenario.disk_without_corrections
    !! path_join Scenario.schemas "area_code_corrections.json" = None
  ∧ ∃ e s2,
      Scenario.area_code_mapping Scenario.disk_without_corrections = (Err e, s2)
      ∧ Scenario.update Scenario.disk_without_corrections
        = (match e with UpdateFailedError => Ok tt | _ => Err e end, s2)
      ∧ fetched s2
        = Dac2Translation.DAC2_TRANSLATION_SCHEMA_URL
            :: fetched Scenario.disk_without_corrections
      ∧ files s2 !! path_join Scenario.schemas "area_code_corrections.json"
        = None
      ∧ e ≠ MissingCorrectionsError.
Proof.
  assert (Hfile : files Scenario.disk_without_corrections
                    !! path_join Scenario.schemas "area_code_corrections.json"
                  = None) by (vm_compute; reflexivity).
  split; [exact Hfile|].
  exact (corrections_absent_runs_update
           Scenario.schemas Scenario.remote Scenario.decimal
           Scenario.dac_to_area_codes Scenario.disk_without_corrections
           _ _ scenario_base_load Hfile).
Defined.

(** C2 as stated fails: with the correction file missing, the schema
    document is requested (the update pipeline runs) and the error is
    [UpdateFailedError], not [MissingCorrectionsError]. *)
Lemma corrections_absent_counterexample :
  files Scenario.disk_without_corrections
    !! path_join Scenario.schemas "area_code_corrections.json" = None
  ∧ fetched Scenario.disk_without_corrections = []
  ∧ (Scenario.area_code_mapping Scenario.disk_without_corrections).1
    = Err UpdateFailedError
  ∧ (Scenario.area_code_mapping Scenario.disk_without_corrections).1
    ≠ Err MissingCorrectionsError
  ∧ fetched (Scenario.area_code_mapping Scenario.disk_without_corrections).2
    = [Dac2Translation.DAC2_TRANSLATION_SCHEMA_URL].
Proof.
  repeat split; try (vm_compute; reflexivity). vm_compute. discriminate.
Qed.

Lemma scenario_prices_load (s : Store) :
  ret (S:=Store) Scenario.prices s = (Ok Scenario.prices, s).
Proof. reflexivity. Defined.

Lemma scenario_frame : frames Scenario.world !! 0 = Some Scenario.rows.
Proof. reflexivity. Defined.





Example scenario_converted :
  (Scenario.convert_to_dotstat_codes Scenario.prices 0 Scenario.world).1 = Ok 3
  ∧ frames (Scenario.convert_to_dotstat_codes Scenario.prices 0 Scenario.world).2
      !! 3 = Some Scenario.converted_rows.
Proof. split; vm_compute; reflexivity. Qed.

(** The caller's data frame of the scenario is still at reference [0], and
    the call returns. *)
Lemma convert_to_dotstat_codes_frame_witness :
  frames Scenario.world !! 0 = Some Scenario.rows
  ∧ (∀ j old, frames Scenario.world !! j = Some old →
       frames (Scenario.convert_to_dotstat_codes Scenario.prices 0
                 Scenario.world).2 !! j = Some old)
  ∧ ∃ out w',
      Scenario.convert_to_dotstat_codes Scenario.prices 0 Scenario.world
      = (Ok out, w').
Proof.
  pose proof (convert_to_dotstat_codes_frame
                Scenario.schemas Scenario.remote Scenario.decimal
                Scenario.dac_to_area_codes (ret Scenario.prices)
                Scenario.world 0 Scenario.rows scenario_frame)
    as (Hkept & _ & Hreturns).
  split; [exact scenario_frame|]. split; [exact Hkept|].
  exact (Hreturns Scenario.merged Scenario.disk Scenario.prices Scenario.disk
           scenario_area_code_mapping (scenario_prices_load Scenario.disk)).
Defined.

Lemma scenario_prices_wf : PyDict.wf Scenario.prices.
Proof.
  exact (bool_decide_unpack (NoDup (PyDict.keys Scenario.prices)) I).
Defined.

Lemma scenario_prices_one_to_one : one_to_one Scenario.prices.
Proof.
  apply values_one_to_one; [exact scenario_prices_wf|].
  exact (bool_decide_unpack (NoDup (PyDict.values Scenario.prices)) I).
Defined.

(** The price mapping of the scenario, inverted twice. *)
Lemma invert_round_trip_witness :
  PyDict.wf Scenario.prices ∧ one_to_one Scenario.prices
  ∧ invert (invert Scenario.prices) = Scenario.prices.
Proof.
  split; [exact scenario_prices_wf|].
  split; [exact scenario_prices_one_to_one|].
  exact (invert_round_trip Scenario.prices scenario_prices_wf
           scenario_prices_one_to_one).
Defined.

(** In [{A: x, B: x}] the value [x] maps to [B], the last key that has it. *)
Lemma invert_last_key_wins_witness :
  Scenario.ambiguous_prices = [(CStr "A", CStr "x")] ++ [(CStr "B", CStr "x")]
  ∧ (CStr "x" ∉ PyDict.values (@nil (code * code)))
  ∧ PyDict.get (invert Scenario.ambiguous_prices) (CStr "x") = Some (CStr "B").
Proof.
  assert (Hsplit : Scenario.ambiguous_prices
                   = [(CStr "A", CStr "x")] ++ [(CStr "B", CStr "x")])
    by reflexivity.
  assert (Hlast : CStr "x" ∉ PyDict.values (@nil (code * code)))
    by apply not_elem_of_nil.
  split; [exact Hsplit|]. split; [exact Hlast|].
  exact (proj2 (proj2 (invert_last_key_wins Scenario.ambiguous_prices))
           [(CStr "A", CStr "x")] [] (CStr "B") (CStr "x") Hsplit Hlast).
Defined.

(** C3 as stated fails: the price mapping [{A: x, B: x}] is not one-to-one,
    yet its inversion is the mapping [{x: B}] and [convert_to_dotstat_codes]
    returns a data frame instead of raising [AmbiguousInversionError]. *)
Lemma invert_ambiguous_counterexample :
  ¬ one_to_one Scenario.ambiguous_prices
  ∧ invert Scenario.ambiguous_prices = [(CStr "x", CStr "B")]
  ∧ (Scenario.convert_to_dotstat_codes Scenario.ambiguous_prices 0
       Scenario.world).1 = Ok 3
  ∧ (Scenario.convert_to_dotstat_codes Scenario.ambiguous_prices 0
       Scenario.world).1 ≠ Err AmbiguousInversionError.
Proof.
  split; [|split; [|split]].
  - intros Hinj.
    specialize (Hinj (CStr "A") (CStr "B") (CStr "x") eq_refl eq_refl).
    discriminate Hinj.
  - reflexivity.
  - vm_compute. reflexivity.
  - vm_compute. discriminate.
Qed.

Lemma scenario_download :
  Scenario.api_response_to_df "DSD_DAC1@DF_DAC1"
    (Dac1.mkReadCsvOptions unit ["_Z"; "nan"] true tt)
    (mkWorld (store Scenario.empty_world) (frames Scenario.empty_world)
       ("Downloading DAC1 data. This may take a while..."
          :: log Scenario.empty_world))
  = (Ok 0,
     mkWorld (mkStore ∅ []) [Scenario.rows]
       ["Downloading DAC1 data. This may take a while..."]).
Proof. reflexivity. Defined.

(** The download of the scenario, then the refusal to translate. *)
Lemma download_dac1_raw_dotstat_fails_witness :
  Scenario.download_dac1 (Some 2018%Z) (Some 2020%Z) None false true
    Scenario.empty_world
  = (Err (ValueError "Cannot convert to dotstat codes without preprocessing."),
     mkWorld (mkStore ∅ []) [Scenario.rows]
       ["Downloading DAC1 data. This may take a while..."]).
Proof.
  exact (proj2 (download_dac1_raw_dotstat_fails
           unit unit string Scenario.read_schema_translation
           Scenario.get_dtypes Scenario.new_query_builder
           Scenario.build_dac1_filter Scenario.set_filter
           Scenario.set_time_period Scenario.build_query
           Scenario.api_response_to_df Scenario.preprocess
           (Scenario.convert_to_dotstat_codes Scenario.prices)
           (Some 2018%Z) (Some 2020%Z) None Scenario.empty_world)
           tt Scenario.empty_world tt "DSD_DAC1@DF_DAC1" 0 _
           eq_refl eq_refl eq_refl scenario_download).
Defined.

(** The download of the scenario, returned as it is. *)
Lemma download_dac1_raw_returns_download_witness :
  Scenario.download_dac1 (Some 2018%Z) (Some 2020%Z) None false false
    Scenario.empty_world
  = (Ok 0,
     mkWorld (mkStore ∅ []) [Scenario.rows]
       ["Data downloaded correctly.";
        "Downloading DAC1 data. This may take a while..."]).
Proof.
  exact (download_dac1_raw_returns_download
           unit unit string Scenario.read_schema_translation
           Scenario.get_dtypes Scenario.new_query_builder
           Scenario.build_dac1_filter Scenario.set_filter
           Scenario.set_time_period Scenario.build_query
           Scenario.api_response_to_df Scenario.preprocess
           (Scenario.convert_to_dotstat_codes Scenario.prices)
           (Some 2018%Z) (Some 2020%Z) None Scenario.empty_world
           tt Scenario.empty_world tt "DSD_DAC1@DF_DAC1" 0 _
           eq_refl eq_refl eq_refl scenario_download).
Defined.

(** C5 as stated fails: with [pre_process] false and [dotstat_codes] true
    and a download that raises, the call raises the download's error, not
    the [ValueError] of the flag check, which comes after the download. *)
Lemma download_dac1_raw_dotstat_counterexample :
  (Dac1.download_dac1 unit unit string Scenario.read_schema_translation
     Scenario.get_dtypes Scenario.new_query_builder
     Scenario.build_dac1_filter Scenario.set_filter Scenario.set_time_period
     Scenario.build_query Cases.api_down Scenario.preprocess
     (Scenario.convert_to_dotstat_codes Scenario.prices)
     None None None false true Cases.ready_world).1
  = Err NetworkError
  ∧ (Dac1.download_dac1 unit unit string Scenario.read_schema_translation
       Scenario.get_dtypes Scenario.new_query_builder
       Scenario.build_dac1_filter Scenario.set_filter
       Scenario.set_time_period Scenario.build_query Cases.api_down
       Scenario.preprocess
       (Scenario.convert_to_dotstat_codes Scenario.prices)
       None None None false true Cases.ready_world).1
    ≠ Err (ValueError
             "Cannot convert to dotstat codes without preprocessing.").
Proof. split; [reflexivity | discriminate]. Qed.

(** C10 as stated fails: with both flags false and a download that raises,
    the call does not succeed; it raises the download's error and returns
    no data frame. *)
Lemma download_dac1_raw_returns_download_counterexample :
  (Dac1.download_dac1 unit unit string Scenario.read_schema_translation
     Scenario.get_dtypes Scenario.new_query_builder
     Scenario.build_dac1_filter Scenario.set_filter Scenario.set_time_period
     Scenario.build_query Cases.api_down Scenario.preprocess
     (Scenario.convert_to_dotstat_codes Scenario.prices)
     None None None false false Cases.ready_world).1
  = Err NetworkError
  ∧ ¬ ∃ df,
      (Dac1.download_dac1 unit unit string Scenario.read_schema_translation
         Scenario.get_dtypes Scenario.new_query_builder
         Scenario.build_dac1_filter Scenario.set_filter
         Scenario.set_time_period Scenario.build_query Cases.api_down
         Scenario.preprocess
         (Scenario.convert_to_dotstat_codes Scenario.prices)
         None None None false false Cases.ready_world).1
      = Ok df.
Proof. split; [reflexivity | by intros [df Hdf]]. Qed.

(** * Further properties *)

(** ** [download_dac1]: the other paths *)

Section DownloadDac1Paths.
Variables SchemaTranslation Dtypes QueryBuilder : Type.
Variable read_schema_translation : M World SchemaTranslation.
Variable get_dtypes : SchemaTranslation → result Dtypes.
Variable new_query_builder : string → result QueryBuilder.
Variable build_dac1_filter :
  QueryBuilder → PyDict.dict string code → result string.
Variable set_filter : QueryBuilder → string → result QueryBuilder.
Variable set_time_period :
  QueryBuilder → option Z → option Z → result QueryBuilder.
Variable build_query : QueryBuilder → result string.
Variable api_response_to_df :
  string → Dac1.ReadCsvOptions Dtypes → M World nat.
Variable preprocess : nat → SchemaTranslation → M World nat.
Variable convert_to_dotstat_codes : nat → M World nat.

Local Abbreviation download_dac1 :=
  (Dac1.download_dac1 SchemaTranslation Dtypes QueryBuilder
     read_schema_translation get_dtypes new_query_builder build_dac1_filter
     set_filter set_time_period build_query api_response_to_df preprocess
     convert_to_dotstat_codes).
Local Abbreviation query_url :=
  (Dac1.query_url QueryBuilder new_query_builder build_dac1_filter
     set_filter set_time_period build_query).
Local Abbreviation downloading w :=
  (mkWorld (store w) (frames w)
     ("Downloading DAC1 data. This may take a while..." :: log w)).
Local Abbreviation downloaded w :=
  (mkWorld (store w) (frames w) ("Data downloaded correctly." :: log w)).
Local Abbreviation options data_types :=
  (Dac1.mkReadCsvOptions Dtypes ["_Z"; "nan"] true data_types).

(** The call up to the download, for any flags. *)
Lemma download_dac1_run start_year end_year download_filters
    pre_process dotstat_codes w :
  download_dac1 start_year end_year download_filters
    pre_process dotstat_codes w
  = match read_schema_translation w with
    | (Ok schema_translation, w1) =>
        match get_dtypes schema_translation with
        | Ok data_types =>
            match query_url start_year end_year download_filters with
            | Ok url =>
                match api_response_to_df url (options data_types)
                        (downloading w1) with
                | (Ok df, w2) =>
                    (df <- (if pre_process then
                              df <- preprocess df schema_translation ;;
                              if dotstat_codes
                              then convert_to_dotstat_codes df else ret df
                            else
                              if dotstat_codes then
                                raise (ValueError
                                  "Cannot convert to dotstat codes without preprocessing.")
                              else ret df) ;;
                     logger_info "Data downloaded correctly." ;;;
                     ret df) w2
                | (Err e, w2) => (Err e, w2)
                end
            | Err e => (Err e, downloading w1)
            end
        | Err e => (Err e, w1)
        end
    | (Err e, w1) => (Err e, w1)
    end.
Proof.
  unfold Dac1.download_dac1, Dac1.query_url.
  unfold bind at 1. destruct (read_schema_translation w) as [[schema|e] w1];
    [|done].
  unfold bind at 1, lift_result at 1.
  destruct (get_dtypes schema) as [data_types|e]; [|done].
  unfold bind at 1, logger_info at 1.
  unfold bind at 1, lift_result at 1.
  destruct (new_query_builder Dac1.DATAFLOW_ID) as [qb0|e]; [|done].
  unfold bind at 1.
  destruct (Dac1.truthy download_filters).
  - unfold bind at 1, lift_result at 1.
    destruct (build_dac1_filter _ _) as [filter_str|e]; [|done].
    unfold lift_result at 1.
    destruct (set_filter _ _) as [qb1|e]; [|done].
    unfold bind at 1, lift_result at 1.
    destruct (set_time_period _ _ _) as [qb|e]; [|done].
    unfold bind at 1, lift_result at 1.
    destruct (build_query qb) as [url|e]; [|done].
    unfold bind at 1.
    by destruct (api_response_to_df _ _ _) as [[df|e] w2].
  - unfold ret at 1.
    unfold bind at 1, lift_result at 1.
    destruct (set_time_period _ _ _) as [qb|e]; [|done].
    unfold bind at 1, lift_result at 1.
    destruct (build_query qb) as [url|e]; [|done].
    unfold bind at 1.
    by destruct (api_response_to_df _ _ _) as [[df|e] w2].
Qed.

(** X1.  With [pre_process] true and [dotstat_codes] false, once the
    download and the preprocessing have succeeded, the call returns the
    preprocessed data frame in the state preprocessing left, with the
    closing message logged; the code translation is not run. *)
Theorem download_dac1_preprocess_only start_year end_year download_filters
    w schema_translation w1 data_types url df w2 df' w3 :
  read_schema_translation w = (Ok schema_translation, w1) →
  get_dtypes schema_translation = Ok data_types →
  query_url start_year end_year download_filters = Ok url →
  api_response_to_df url (options data_types) (downloading w1) = (Ok df, w2) →
  preprocess df schema_translation w2 = (Ok df', w3) →
  download_dac1 start_year end_year download_filters true false w
  = (Ok df', downloaded w3).
Proof.
  intros Hschema Hdtypes Hurl Hdf Hpre. rewrite download_dac1_run.
  rewrite Hschema, Hdtypes, Hurl, Hdf.
  unfold bind at 1. unfold bind at 1. by rewrite Hpre.
Qed.

(** X2.  With both flags true the code translation is applied to the data
    frame that preprocessing returned, in the state preprocessing left:
    its data frame is returned with the closing message logged, and its
    error is raised with nothing more logged. *)
Theorem download_dac1_preprocess_then_convert start_year end_year
    download_filters w schema_translation w1 data_types url df w2 df' w3 :
  read_schema_translation w = (Ok schema_translation, w1) →
  get_dtypes schema_translation = Ok data_types →
  query_url start_year end_year download_filters = Ok url →
  api_response_to_df url (options data_types) (downloading w1) = (Ok df, w2) →
  preprocess df schema_translation w2 = (Ok df', w3) →
  download_dac1 start_year end_year download_filters true true w
  = match convert_to_dotstat_codes df' w3 with
    | (Ok out, w4) => (Ok out, downloaded w4)
    | (Err e, w4) => (Err e, w4)
    end.
Proof.
  intros Hschema Hdtypes Hurl Hdf Hpre. rewrite download_dac1_run.
  rewrite Hschema, Hdtypes, Hurl, Hdf.
  unfold bind at 1. unfold bind at 1. rewrite Hpre.
  by destruct (convert_to_dotstat_codes df' w3) as [[out|e] w4].
Qed.

(** X3.  When the download raises, the call raises the same error in the
    state the download left, whatever the two flags: neither preprocessing
    nor the flag check nor the closing message is reached. *)
Theorem download_dac1_download_error start_year end_year download_filters
    w schema_translation w1 data_types url e w2 :
  read_schema_translation w = (Ok schema_translation, w1) →
  get_dtypes schema_translation = Ok data_types →
  query_url start_year end_year download_filters = Ok url →
  api_response_to_df url (options data_types) (downloading w1) = (Err e, w2) →
  ∀ pre_process dotstat_codes,
    download_dac1 start_year end_year download_filters
      pre_process dotstat_codes w
    = (Err e, w2).
Proof.
  intros Hschema Hdtypes Hurl Hdf pre_process dotstat_codes.
  rewrite download_dac1_run. by rewrite Hschema, Hdtypes, Hurl, Hdf.
Qed.

(** X4.  When preprocessing raises, the call raises the same error in the
    state preprocessing left, with [dotstat_codes] true or false: the code
    translation is not run. *)
Theorem download_dac1_preprocess_error start_year end_year download_filters
    w schema_translation w1 data_types url df w2 e w3 :
  read_schema_translation w = (Ok schema_translation, w1) →
  get_dtypes schema_translation = Ok data_types →
  query_url start_year end_year download_filters = Ok url →
  api_response_to_df url (options data_types) (downloading w1) = (Ok df, w2) →
  preprocess df schema_translation w2 = (Err e, w3) →
  ∀ dotstat_codes,
    download_dac1 start_year end_year download_filters true dotstat_codes w
    = (Err e, w3).
Proof.
  intros Hschema Hdtypes Hurl Hdf Hpre dotstat_codes.
  rewrite download_dac1_run. rewrite Hschema, Hdtypes, Hurl, Hdf.
  unfold bind at 1. unfold bind at 1. by rewrite Hpre.
Qed.

(** X5.  When [download_filters] is a non-empty dictionary and the filter
    cannot be built, the call raises the builder's error right after the
    opening message, whatever the two flags; nothing is downloaded. *)
Theorem download_dac1_filter_error start_year end_year item items
    w schema_translation w1 data_types qb e :
  read_schema_translation w = (Ok schema_translation, w1) →
  get_dtypes schema_translation = Ok data_types →
  new_query_builder Dac1.DATAFLOW_ID = Ok qb →
  build_dac1_filter qb (item :: items) = Err e →
  ∀ pre_process dotstat_codes,
    download_dac1 start_year end_year (Some (item :: items))
      pre_process dotstat_codes w
    = (Err e, downloading w1).
Proof.
  intros Hschema Hdtypes Hqb Hfilter pre_process dotstat_codes.
  rewrite download_dac1_run. rewrite Hschema, Hdtypes.
  unfold Dac1.query_url. rewrite Hqb. simpl. by rewrite Hfilter.
Qed.

(** X6.  A call that returns a data frame has logged the closing message
    last, and was not made with [pre_process] false and [dotstat_codes]
    true. *)
Theorem download_dac1_success start_year end_year download_filters
    pre_process dotstat_codes w df w' :
  download_dac1 start_year end_year download_filters
    pre_process dotstat_codes w = (Ok df, w') →
  (pre_process = true ∨ dotstat_codes = false)
  ∧ ∃ w'', w' = downloaded w''.
Proof.
  rewrite download_dac1_run.
  destruct (read_schema_translation w) as [[schema|e] w1]; [|done].
  destruct (get_dtypes schema) as [data_types|e]; [|done].
  destruct (query_url _ _ _) as [url|e]; [|done].
  destruct (api_response_to_df _ _ _) as [[df0|e] w2]; [|done].
  intros Hrun. apply bind_inv_Ok in Hrun.
  destruct Hrun as (df1 & w3 & Hbody & Hlog).
  unfold bind, logger_info, ret in Hlog. injection Hlog as <- <-. split.
  - destruct pre_process; [by left|].
    destruct dotstat_codes; [discriminate Hbody | by right].
  - by exists w3.
Qed.
End DownloadDac1Paths.

(** ** The inverted price mapping *)

Section InvertMore.
Implicit Types (d acc : Mapping) (k v : code).

Lemma invert_wf d : PyDict.wf (invert d).
Proof.
  unfold invert.
  assert (Hfold : ∀ acc, PyDict.wf acc →
    PyDict.wf (fold_left (fun a kv => PyDict.set a kv.2 kv.1) d acc)).
  { induction d as [|[k v] rest IH]; simpl; intros acc Hacc; [done|].
    apply IH. by apply (wf_set acc). }
  apply Hfold. apply NoDup_nil_2.
Qed.

Lemma keys_invert d v : v ∈ PyDict.keys (invert d) ↔ v ∈ PyDict.values d.
Proof.
  unfold invert. rewrite keys_invert_from.
  change (PyDict.keys (@nil (code * code))) with (@nil code).
  rewrite elem_of_nil. tauto.
Qed.

Lemma get_invert_from d acc v k :
  PyDict.get (fold_left (fun a kv => PyDict.set a kv.2 kv.1) d acc) v = Some k →
  PyDict.get acc v = Some k ∨ (k, v) ∈ d.
Proof.
  revert acc. induction d as [|[k0 v0] d IH]; simpl; intros acc Hget.
  - by left.
  - apply IH in Hget. destruct Hget as [Hacc|Hin].
    + destruct (decide (v0 = v)) as [->|Hne].
      * rewrite (get_set_eq acc v k0) in Hacc. injection Hacc as ->.
        right. left.
      * rewrite (get_set_ne acc v0 v k0) in Hacc by done. by left.
    + right. by right.
Qed.

(** X7.  Every item of the inverted mapping is an item of the mapping,
    swapped: the inversion invents no pair, one-to-one or not. *)
Theorem invert_sound d v k : PyDict.get (invert d) v = Some k → (k, v) ∈ d.
Proof.
  unfold invert. intros Hget. apply get_invert_from in Hget.
  by destruct Hget as [Hnil|Hin].
Qed.

(** X8.  The inverted mapping never has more items than the mapping, and
    for a valid dictionary it has as many exactly when the mapping is
    one-to-one: otherwise items are dropped without an error. *)
Theorem invert_length d :
  (length (invert d) ≤ length d)%nat
  ∧ (PyDict.wf d → (length (invert d) = length d ↔ one_to_one d)).
Proof.
  assert (Hsub : PyDict.keys (invert d) ⊆+ PyDict.values d).
  { apply NoDup_submseteq; [apply invert_wf|].
    intros v. by rewrite keys_invert. }
  assert (Hk : length (PyDict.keys (invert d)) = length (invert d))
    by apply length_fmap.
  assert (Hv : length (PyDict.values d) = length d) by apply length_fmap.
  split.
  - apply submseteq_length in Hsub. lia.
  - intros Hwf. split.
    + intros Hlen. apply values_one_to_one; [done|].
      assert (Hperm : PyDict.keys (invert d) ≡ₚ PyDict.values d)
        by (apply submseteq_length_Permutation; [done | lia]).
      rewrite <- Hperm. apply invert_wf.
    + intros Hinj. apply one_to_one_values in Hinj; [|done].
      rewrite invert_distinct by done. apply length_fmap.
Qed.

(** X9.  For a one-to-one mapping the inverted mapping answers the reverse
    question: it maps [v] to [k] exactly when the mapping maps [k] to
    [v]. *)
Theorem invert_lookup d v k :
  PyDict.wf d → one_to_one d →
  (PyDict.get (invert d) v = Some k ↔ PyDict.get d k = Some v).
Proof.
  intros Hwf Hinj. split.
  - intros Hget. apply get_elem_of; [done|]. by apply invert_sound.
  - intros Hget. apply get_elem_of; [apply invert_wf|].
    apply one_to_one_values in Hinj; [|done].
    rewrite invert_distinct by done.
    apply list_elem_of_fmap. exists (k, v). split; [done|].
    by apply elem_of_get.
Qed.
End InvertMore.

(** ** The order of the merged keys *)

Section UnionOrder.
Context {K V : Type} `{EqDecision K}.
Implicit Types (d other : PyDict.dict K V) (k : K) (v : V).

Lemma keys_set_present d k v :
  k ∈ PyDict.keys d → PyDict.keys (PyDict.set d k v) = PyDict.keys d.
Proof.
  unfold PyDict.keys. induction d as [|[k0 v0] d IH]; simpl.
  - by intros Hin%elem_of_nil.
  - intros Hin. destruct (decide (k = k0)) as [->|Hne]; simpl; [done|].
    apply elem_of_cons in Hin. destruct Hin as [Heq|Hin]; [done|].
    f_equal. by apply IH.
Qed.

Lemma filter_agree (P Q : K → Prop) `{!∀ x, Decision (P x)}
    `{!∀ x, Decision (Q x)} (l : list K) :
  (∀ x, x ∈ l → (P x ↔ Q x)) → filter P l = filter Q l.
Proof.
  induction l as [|x l IH]; intros Hagree; [done|].
  assert (Hx : P x ↔ Q x) by (apply Hagree; left).
  assert (Hl : filter P l = filter Q l).
  { apply IH. intros y Hy. apply Hagree. by right. }
  destruct (decide (P x)) as [HP|HP].
  - rewrite !filter_cons_True by tauto. by rewrite Hl.
  - rewrite !filter_cons_False by tauto. done.
Qed.

(** The keys of [d | other]: those of [d] in their order, then the new keys
    of [other] in theirs. *)
Lemma keys_update_order d other :
  PyDict.wf other →
  PyDict.keys (PyDict.update d other)
  = PyDict.keys d ++ filter (λ k, k ∉ PyDict.keys d) (PyDict.keys other).
Proof.
  revert d. induction other as [|[k v] other IH]; intros d Hwf.
  - change (PyDict.keys (@nil (K * V))) with (@nil K).
    rewrite filter_nil, app_nil_r. done.
  - change (PyDict.keys ((k, v) :: other)) with (k :: PyDict.keys other).
    change (PyDict.update d ((k, v) :: other))
      with (PyDict.update (PyDict.set d k v) other).
    unfold PyDict.wf in Hwf.
    change (PyDict.keys ((k, v) :: other)) with (k :: PyDict.keys other) in Hwf.
    apply NoDup_cons in Hwf. destruct Hwf as [Hk Hwf].
    rewrite IH by done.
    destruct (decide (k ∈ PyDict.keys d)) as [Hin|Hnin].
    + rewrite keys_set_present by done.
      rewrite filter_cons_False by (intros Hn; by apply Hn). done.
    + rewrite filter_cons_True by done.
      assert (Hkeys : PyDict.keys (PyDict.set d k v) = PyDict.keys d ++ [k]).
      { rewrite set_fresh by done. unfold PyDict.keys.
        by rewrite (fmap_app fst d [(k, v)]). }
      rewrite Hkeys, <- app_assoc. simpl.
      f_equal. f_equal. apply filter_agree. intros x Hx.
      rewrite not_elem_of_app, list_elem_of_singleton.
      split; [tauto|]. intros Hxd. split; [done|]. by intros ->.
Qed.
End UnionOrder.

(** ** [area_code_mapping]: loads, requests and repeated calls *)

Section AreaCodeMappingMore.
Variable schemas : Path.
Variable remote : string → fetch_outcome.
Variable int_of_string : string → option Z.
Variable dac_to_area_codes : xml → Mapping.

Local Abbreviation base_path := (path_join schemas "dac2_codes_area.json").
Local Abbreviation corrections_path :=
  (path_join schemas "area_code_corrections.json").
Local Abbreviation url := Dac2Translation.DAC2_TRANSLATION_SCHEMA_URL.
Local Abbreviation update :=
  (Dac2Translation.update_dac2_translation_mappings
     schemas remote dac_to_area_codes).
Local Abbreviation area_code_mapping :=
  (Dac2Translation.area_code_mapping
     schemas remote int_of_string dac_to_area_codes).

(** [area_code_mapping] from the outcome of its two loads. *)
Lemma area_code_mapping_run s :
  area_code_mapping s
  = match read_mapping int_of_string base_path true update s with
    | (Ok base, s1) =>
        match read_mapping int_of_string corrections_path true update s1 with
        | (Ok corrections, s2) => (Ok (PyDict.union base corrections), s2)
        | (Err e, s2) => (Err e, s2)
        end
    | (Err e, s1) => (Err e, s1)
    end.
Proof.
  unfold Dac2Translation.area_code_mapping.
  erewrite bind_Ok by (unfold lift_result; by rewrite MAPPINGS_base).
  unfold bind at 1.
  destruct (read_mapping _ base_path _ _ s) as [[base|e] s1]; [|done].
  erewrite bind_Ok by (unfold lift_result; by rewrite MAPPINGS_corrections).
  unfold bind at 1.
  by destruct (read_mapping _ corrections_path _ _ s1) as [[corr|e] s2].
Qed.

(** X10.  The base mapping is loaded first: when its load raises,
    [area_code_mapping] raises the same error in the state that load left,
    and the correction mapping is not loaded. *)
Theorem area_code_mapping_base_error s e s1 :
  read_mapping int_of_string base_path true update s = (Err e, s1) →
  area_code_mapping s = (Err e, s1).
Proof. intros Hbase. rewrite area_code_mapping_run. by rewrite Hbase. Qed.

(** X11.  A mapping returned by [area_code_mapping] has no key twice, and
    its keys are the keys of the base mapping in their order followed by
    the keys that only the correction mapping has, in theirs. *)
Theorem area_code_mapping_key_order s merged s' :
  area_code_mapping s = (Ok merged, s') →
  PyDict.wf merged
  ∧ ∃ base corrections s1,
      read_mapping int_of_string base_path true update s = (Ok base, s1)
      ∧ read_mapping int_of_string corrections_path true update s1
        = (Ok corrections, s')
      ∧ PyDict.keys merged
        = PyDict.keys base
          ++ filter (λ k, k ∉ PyDict.keys base) (PyDict.keys corrections).
Proof.
  intros Hrun. apply area_code_mapping_inv in Hrun.
  destruct Hrun as (base & corr & s1 & Hbase & Hcorr & ->).
  pose proof (read_mapping_int_keys _ _ _ _ _ _ Hbase) as [Hwfb _].
  pose proof (read_mapping_int_keys _ _ _ _ _ _ Hcorr) as [Hwfc _].
  split; [by apply wf_update|].
  exists base, corr, s1. split; [done|]. split; [done|].
  by apply keys_update_order.
Qed.

(** [area_code_mapping] with both files on disk. *)
Lemma area_code_mapping_present s base_raw corrections_raw :
  files s !! base_path = Some base_raw →
  files s !! corrections_path = Some corrections_raw →
  area_code_mapping s
  = (match coerce_keys int_of_string base_raw with
     | Ok base =>
         match coerce_keys int_of_string corrections_raw with
         | Ok corrections => Ok (PyDict.union base corrections)
         | Err e => Err e
         end
     | Err e => Err e
     end, s).
Proof.
  intros Hb Hc. rewrite area_code_mapping_run.
  rewrite (read_mapping_present _ _ _ _ _ base_raw) by done.
  destruct (coerce_keys int_of_string base_raw) as [base|e]; [|done].
  rewrite (read_mapping_present _ _ _ _ _ corrections_raw) by done.
  by destruct (coerce_keys int_of_string corrections_raw).
Qed.

(** X12.  With both mapping files on disk, [area_code_mapping] requests no
    document and writes no file, whether it returns or raises: the state
    is left as it was, and the result is the merge of the two files with
    their keys read as integers. *)
Theorem area_code_mapping_cache_hit s base_raw corrections_raw :
  files s !! base_path = Some base_raw →
  files s !! corrections_path = Some corrections_raw →
  (area_code_mapping s).2 = s
  ∧ ∀ base corrections,
      coerce_keys int_of_string base_raw = Ok base →
      coerce_keys int_of_string corrections_raw = Ok corrections →
      (area_code_mapping s).1 = Ok (PyDict.union base corrections).
Proof.
  intros Hb Hc. rewrite (area_code_mapping_present _ _ _ Hb Hc).
  split; [done|]. intros base corr -> ->. done.
Qed.

(** A load that returns has its file on disk afterwards. *)
Lemma read_mapping_Ok_file location upd s mapping s' :
  read_mapping int_of_string location true upd s = (Ok mapping, s') →
  ∃ raw, files s' !! location = Some raw
         ∧ coerce_keys int_of_string raw = Ok mapping.
Proof.
  destruct (files s !! location) as [raw|] eqn:Hfile.
  - rewrite (read_mapping_present _ _ _ _ _ raw) by done.
    intros [= Hc <-]. by exists raw.
  - rewrite read_mapping_absent by done.
    destruct (upd s) as [[[]|e] s1]; [|done].
    destruct (files s1 !! location) as [raw|] eqn:Hfile1; [|done].
    intros [= Hc <-]. by exists raw.
Qed.

(** X13.  After a call of [area_code_mapping] that returned a mapping, a
    second call returns the same mapping and leaves the state as it is:
    no document is requested and no file is written again. *)
Theorem area_code_mapping_repeat s merged s' :
  area_code_mapping s = (Ok merged, s') →
  area_code_mapping s' = (Ok merged, s').
Proof.
  intros Hrun. apply area_code_mapping_inv in Hrun.
  destruct Hrun as (base & corr & s1 & Hbase & Hcorr & ->).
  apply read_mapping_Ok_file in Hbase.
  destruct Hbase as (base_raw & Hbfile & Hbc).
  assert (Hpresent : ∃ raw, files s1 !! corrections_path = Some raw).
  { destruct (files s1 !! corrections_path) as [raw|] eqn:Hfile; [by eauto|].
    exfalso. rewrite read_mapping_absent in Hcorr by done.
    pose proof (update_files_other schemas remote dac_to_area_codes s1
                  corrections_path) as Hother.
    rewrite Hfile in Hother.
    specialize (Hother (fun Heq => paths_distinct schemas (eq_sym Heq))).
    destruct (update s1) as [[[]|e] s2]; [|done].
    simpl in Hother. by rewrite Hother in Hcorr. }
  destruct Hpresent as [corr_raw Hcfile].
  rewrite (read_mapping_present _ _ _ _ _ corr_raw) in Hcorr by done.
  injection Hcorr as Hcc <-.
  rewrite (area_code_mapping_present _ _ _ Hbfile Hcfile).
  by rewrite Hbc, Hcc.
Qed.

(** X14.  With neither file on disk and a schema document that yields a
    base mapping, [area_code_mapping] requests the document twice, once
    for each load, writes the base file, and fails with
    [UpdateFailedError], the correction file being still absent. *)
Theorem area_code_mapping_both_absent s doc xml_data base :
  files s !! base_path = None →
  files s !! corrections_path = None →
  remote url = Fetched doc →
  xml_getitem doc "Structures" = Ok xml_data →
  coerce_keys int_of_string (dac_to_area_codes xml_data) = Ok base →
  area_code_mapping s
  = (Err UpdateFailedError,
     mkStore (<[base_path := dac_to_area_codes xml_data]> (files s))
       (url :: url :: fetched s)).
Proof.
  intros Hb Hc Hremote Hx Hcoerce.
  assert (Hupdate : ∀ s0,
    update s0
    = (Ok tt, mkStore (<[base_path := dac_to_area_codes xml_data]> (files s0))
                (url :: fetched s0))).
  { intros s0. rewrite update_run. cbv zeta. by rewrite Hremote, Hx. }
  set (s1 := mkStore (<[base_path := dac_to_area_codes xml_data]> (files s))
               (url :: fetched s)).
  assert (Hb1 : files s1 !! base_path = Some (dac_to_area_codes xml_data))
    by apply lookup_insert_eq.
  assert (Hc1 : files s1 !! corrections_path = None).
  { unfold s1. cbn [files]. rewrite lookup_insert_ne; [done|].
    apply paths_distinct. }
  assert (Hbase : read_mapping int_of_string base_path true update s
                  = (Ok base, s1)).
  { rewrite read_mapping_absent by done. rewrite Hupdate. fold s1.
    by rewrite Hb1, Hcoerce. }
  set (s2 := mkStore (<[base_path := dac_to_area_codes xml_data]> (files s1))
               (url :: fetched s1)).
  assert (Hc2 : files s2 !! corrections_path = None).
  { unfold s2. cbn [files]. rewrite lookup_insert_ne; [done|].
    apply paths_distinct. }
  assert (Hcorr : read_mapping int_of_string corrections_path true update s1
                  = (Err UpdateFailedError, s2)).
  { rewrite read_mapping_absent by done. rewrite Hupdate. fold s2.
    by rewrite Hc2. }
  rewrite area_code_mapping_run, Hbase, Hcorr. f_equal.
  unfold s2, s1. cbn [files fetched]. by rewrite insert_insert_eq.
Qed.

(** X15.  When the update pipeline raises, it has requested the schema
    document and written no file; the error is that of the request
    ([NetworkError], [ParseError]) or of the [Structures] entry being
    missing ([KeyError], [TypeError]). *)
Theorem update_error_keeps_files s e s' :
  update s = (Err e, s') →
  files s' = files s ∧ fetched s' = url :: fetched s ∧ update_error e.
Proof.
  intros Hrun. pose proof (update_raises _ _ _ _ _ _ Hrun) as Herr.
  rewrite update_run in Hrun. simpl in Hrun.
  destruct (remote url) as [doc| |].
  - destruct (xml_getitem doc "Structures"); [done|].
    by injection Hrun as _ <-.
  - by injection Hrun as _ <-.
  - by injection Hrun as _ <-.
Qed.

(** X16.  Running the update pipeline a second time leaves the files as the
    first run left them: only the list of requests grows. *)
Theorem update_twice s :
  files (update (update s).2).2 = files (update s).2
  ∧ fetched (update (update s).2).2 = url :: url :: fetched s.
Proof.
  rewrite !update_run. simpl.
  destruct (remote url) as [doc| |]; simpl; [|done..].
  destruct (xml_getitem doc "Structures") as [xml_data|e]; simpl; [|done].
  by rewrite insert_insert_eq.
Qed.
End AreaCodeMappingMore.

(** ** [convert_to_dotstat_codes]: a load that fails *)

Lemma lift_store_Err {A : Type} (m : M Store A) w e s :
  m (store w) = (Err e, s) →
  lift_store m w = (Err e, mkWorld s (frames w) (log w)).
Proof. unfold lift_store. by intros ->. Qed.

Section ConvertMore.
Variable schemas : Path.
Variable remote : string → fetch_outcome.
Variable int_of_string : string → option Z.
Variable dac_to_area_codes : xml → Mapping.
Variable prices_mapping : M Store Mapping.

(** X17.  [convert_to_dotstat_codes] loads the area mapping, then the price
    mapping, before it translates anything: when either load raises, the
    call raises the same error with no data frame created, and the price
    mapping is not loaded after a failed area load. *)
Theorem convert_to_dotstat_codes_load_error w df :
  (∀ e s1,
     Dac2Translation.area_code_mapping
       schemas remote int_of_string dac_to_area_codes (store w)
     = (Err e, s1) →
     Dac2Translation.convert_to_dotstat_codes
       schemas remote int_of_string dac_to_area_codes prices_mapping df w
     = (Err e, mkWorld s1 (frames w) (log w)))
  ∧ (∀ area_codes s1 e s2,
       Dac2Translation.area_code_mapping
         schemas remote int_of_string dac_to_area_codes (store w)
       = (Ok area_codes, s1) →
       prices_mapping s1 = (Err e, s2) →
       Dac2Translation.convert_to_dotstat_codes
         schemas remote int_of_string dac_to_area_codes prices_mapping df w
       = (Err e, mkWorld s2 (frames w) (log w))).
Proof.
  unfold Dac2Translation.convert_to_dotstat_codes. split.
  - intros e s1 Harea. apply bind_Err. by apply lift_store_Err.
  - intros area s1 e s2 Harea Hprices.
    erewrite bind_Ok by (by apply lift_store_Ok).
    apply bind_Err.
    exact (lift_store_Err prices_mapping
             (mkWorld s1 (frames w) (log w)) e s2 Hprices).
Qed.
End ConvertMore.

(** ** The further cases, run *)

Lemma cases_download :
  Scenario.api_response_to_df "DSD_DAC1@DF_DAC1"
    (Dac1.mkReadCsvOptions unit ["_Z"; "nan"] true tt)
    (mkWorld (store Cases.ready_world) (frames Cases.ready_world)
       ("Downloading DAC1 data. This may take a while..."
          :: log Cases.ready_world))
  = (Ok 0,
     mkWorld Scenario.disk [Scenario.rows]
       ["Downloading DAC1 data. This may take a while..."]).
Proof. reflexivity. Defined.

Lemma cases_preprocess_copy :
  Cases.preprocess_copy 0 tt
    (mkWorld Scenario.disk [Scenario.rows]
       ["Downloading DAC1 data. This may take a while..."])
  = (Ok 1,
     mkWorld Scenario.disk [Scenario.rows; Scenario.rows]
       ["Downloading DAC1 data. This may take a while..."]).
Proof. reflexivity. Defined.

(** Preprocessing alone: the copy made by preprocessing is returned. *)
Lemma download_dac1_preprocess_only_witness :
  Dac1.download_dac1 unit unit string Scenario.read_schema_translation
    Scenario.get_dtypes Scenario.new_query_builder Scenario.build_dac1_filter
    Scenario.set_filter Scenario.set_time_period Scenario.build_query
    Scenario.api_response_to_df Cases.preprocess_copy
    (Scenario.convert_to_dotstat_codes Scenario.prices)
    None None None true false Cases.ready_world
  = (Ok 1,
     mkWorld Scenario.disk [Scenario.rows; Scenario.rows]
       ["Data downloaded correctly.";
        "Downloading DAC1 data. This may take a while..."]).
Proof.
  exact (download_dac1_preprocess_only
           unit unit string Scenario.read_schema_translation
           Scenario.get_dtypes Scenario.new_query_builder
           Scenario.build_dac1_filter Scenario.set_filter
           Scenario.set_time_period Scenario.build_query
           Scenario.api_response_to_df Cases.preprocess_copy
           (Scenario.convert_to_dotstat_codes Scenario.prices)
           None None None Cases.ready_world
           tt Cases.ready_world tt "DSD_DAC1@DF_DAC1" 0 _ 1 _
           eq_refl eq_refl eq_refl cases_download cases_preprocess_copy).
Defined.

(** Both flags: the copy made by preprocessing is what gets translated. *)
Lemma download_dac1_preprocess_then_convert_witness :
  Dac1.download_dac1 unit unit string Scenario.read_schema_translation
    Scenario.get_dtypes Scenario.new_query_builder Scenario.build_dac1_filter
    Scenario.set_filter Scenario.set_time_period Scenario.build_query
    Scenario.api_response_to_df Cases.preprocess_copy
    (Scenario.convert_to_dotstat_codes Scenario.prices)
    None None None true true Cases.ready_world
  = match
      Scenario.convert_to_dotstat_codes Scenario.prices 1
        (mkWorld Scenario.disk [Scenario.rows; Scenario.rows]
           ["Downloading DAC1 data. This may take a while..."])
    with
    | (Ok out, w4) =>
        (Ok out,
         mkWorld (store w4) (frames w4)
           ("Data downloaded correctly." :: log w4))
    | (Err e, w4) => (Err e, w4)
    end.
Proof.
  exact (download_dac1_preprocess_then_convert
           unit unit string Scenario.read_schema_translation
           Scenario.get_dtypes Scenario.new_query_builder
           Scenario.build_dac1_filter Scenario.set_filter
           Scenario.set_time_period Scenario.build_query
           Scenario.api_response_to_df Cases.preprocess_copy
           (Scenario.convert_to_dotstat_codes Scenario.prices)
           None None None Cases.ready_world
           tt Cases.ready_world tt "DSD_DAC1@DF_DAC1" 0 _ 1 _
           eq_refl eq_refl eq_refl cases_download cases_preprocess_copy).
Defined.

Example cases_download_converted :
  let run :=
    Dac1.download_dac1 unit unit string Scenario.read_schema_translation
      Scenario.get_dtypes Scenario.new_query_builder
      Scenario.build_dac1_filter Scenario.set_filter Scenario.set_time_period
      Scenario.build_query Scenario.api_response_to_df Cases.preprocess_copy
      (Scenario.convert_to_dotstat_codes Scenario.prices)
      None None None true true Cases.ready_world in
  run.1 = Ok 4 ∧ frames run.2 !! 4 = Some Scenario.converted_rows
  ∧ frames run.2 !! 0 = Some Scenario.rows.
Proof. repeat split; vm_compute; reflexivity. Qed.

(** The download is down: its error, here with both flags true. *)
Lemma download_dac1_download_error_witness :
  Dac1.download_dac1 unit unit string Scenario.read_schema_translation
    Scenario.get_dtypes Scenario.new_query_builder
    Scenario.build_dac1_filter Scenario.set_filter Scenario.set_time_period
    Scenario.build_query Cases.api_down Scenario.preprocess
    (Scenario.convert_to_dotstat_codes Scenario.prices)
    None None None true true Cases.ready_world
  = (Err NetworkError,
     mkWorld Scenario.disk []
       ["Downloading DAC1 data. This may take a while..."]).
Proof.
  exact (download_dac1_download_error
           unit unit string Scenario.read_schema_translation
           Scenario.get_dtypes Scenario.new_query_builder
           Scenario.build_dac1_filter Scenario.set_filter
           Scenario.set_time_period Scenario.build_query
           Cases.api_down Scenario.preprocess
           (Scenario.convert_to_dotstat_codes Scenario.prices)
           None None None Cases.ready_world
           tt Cases.ready_world tt "DSD_DAC1@DF_DAC1" NetworkError _
           eq_refl eq_refl eq_refl eq_refl true true).
Defined.

(** Preprocessing fails: its error, here with dotstat codes asked for. *)
Lemma download_dac1_preprocess_error_witness :
  Dac1.download_dac1 unit unit string Scenario.read_schema_translation
    Scenario.get_dtypes Scenario.new_query_builder
    Scenario.build_dac1_filter Scenario.set_filter Scenario.set_time_period
    Scenario.build_query Scenario.api_response_to_df Cases.preprocess_fails
    (Scenario.convert_to_dotstat_codes Scenario.prices)
    None None None true true Cases.ready_world
  = (Err (KeyError "DONOR"),
     mkWorld Scenario.disk [Scenario.rows]
       ["Downloading DAC1 data. This may take a while..."]).
Proof.
  exact (download_dac1_preprocess_error
           unit unit string Scenario.read_schema_translation
           Scenario.get_dtypes Scenario.new_query_builder
           Scenario.build_dac1_filter Scenario.set_filter
           Scenario.set_time_period Scenario.build_query
           Scenario.api_response_to_df Cases.preprocess_fails
           (Scenario.convert_to_dotstat_codes Scenario.prices)
           None None None Cases.ready_world
           tt Cases.ready_world tt "DSD_DAC1@DF_DAC1" 0 _ (KeyError "DONOR") _
           eq_refl eq_refl eq_refl cases_download eq_refl true).
Defined.

(** A filter that cannot be built: no data frame is downloaded. *)
Lemma download_dac1_filter_error_witness :
  Dac1.download_dac1 unit unit string Scenario.read_schema_translation
    Scenario.get_dtypes Scenario.new_query_builder Cases.filter_fails
    Scenario.set_filter Scenario.set_time_period Scenario.build_query
    Scenario.api_response_to_df Scenario.preprocess
    (Scenario.convert_to_dotstat_codes Scenario.prices)
    None None (Some [("donor", CStr "USA")]) true true Cases.ready_world
  = (Err (ValueError "unknown filter"),
     mkWorld Scenario.disk []
       ["Downloading DAC1 data. This may take a while..."]).
Proof.
  exact (download_dac1_filter_error
           unit unit string Scenario.read_schema_translation
           Scenario.get_dtypes Scenario.new_query_builder
           Cases.filter_fails Scenario.set_filter
           Scenario.set_time_period Scenario.build_query
           Scenario.api_response_to_df Scenario.preprocess
           (Scenario.convert_to_dotstat_codes Scenario.prices)
           None None ("donor", CStr "USA") [] Cases.ready_world
           tt Cases.ready_world tt "DSD_DAC1@DF_DAC1"
           (ValueError "unknown filter")
           eq_refl eq_refl eq_refl eq_refl true true).
Defined.

Lemma cases_raw_download :
  Scenario.download_dac1 None None None false false Cases.ready_world
  = (Ok 0,
     mkWorld Scenario.disk [Scenario.rows]
       ["Data downloaded correctly.";
        "Downloading DAC1 data. This may take a while..."]).
Proof. reflexivity. Defined.

(** A call that returned: the closing message is the newest. *)
Lemma download_dac1_success_witness :
  (false = true ∨ false = false)
  ∧ ∃ w'',
      mkWorld Scenario.disk [Scenario.rows]
        ["Data downloaded correctly.";
         "Downloading DAC1 data. This may take a while..."]
      = mkWorld (store w'') (frames w'')
          ("Data downloaded correctly." :: log w'').
Proof.
  exact (download_dac1_success
           unit unit string Scenario.read_schema_translation
           Scenario.get_dtypes Scenario.new_query_builder
           Scenario.build_dac1_filter Scenario.set_filter
           Scenario.set_time_period Scenario.build_query
           Scenario.api_response_to_df Scenario.preprocess
           (Scenario.convert_to_dotstat_codes Scenario.prices)
           None None None false false Cases.ready_world 0 _
           cases_raw_download).
Defined.

(** In the inversion of [{A: x, B: x}] the one item comes from the mapping. *)
Lemma invert_sound_witness :
  PyDict.get (invert Scenario.ambiguous_prices) (CStr "x") = Some (CStr "B")
  ∧ (CStr "B", CStr "x") ∈ Scenario.ambiguous_prices.
Proof.
  assert (Hget : PyDict.get (invert Scenario.ambiguous_prices) (CStr "x")
                 = Some (CStr "B")) by reflexivity.
  split; [exact Hget|].
  exact (invert_sound Scenario.ambiguous_prices (CStr "x") (CStr "B") Hget).
Defined.

Lemma cases_ambiguous_wf : PyDict.wf Scenario.ambiguous_prices.
Proof.
  exact (bool_decide_unpack (NoDup (PyDict.keys Scenario.ambiguous_prices)) I).
Defined.

(** [{A: x, B: x}] has two items, its inversion one. *)
Lemma invert_length_witness :
  PyDict.wf Scenario.ambiguous_prices
  ∧ (length (invert Scenario.ambiguous_prices)
     = length Scenario.ambiguous_prices
     ↔ one_to_one Scenario.ambiguous_prices).
Proof.
  split; [exact cases_ambiguous_wf|].
  exact (proj2 (invert_length Scenario.ambiguous_prices) cases_ambiguous_wf).
Defined.

(** The prices of the scenario, looked up in both directions. *)
Lemma invert_lookup_witness :
  PyDict.get (invert Scenario.prices) (CStr "USD_Constant") = Some (CStr "D")
  ↔ PyDict.get Scenario.prices (CStr "D") = Some (CStr "USD_Constant").
Proof.
  exact (invert_lookup Scenario.prices (CStr "USD_Constant") (CStr "D")
           scenario_prices_wf scenario_prices_one_to_one).
Defined.

Lemma cases_base_load_down :
  read_mapping Scenario.decimal
    (path_join Scenario.schemas "dac2_codes_area.json") true
    (Dac2Translation.update_dac2_translation_mappings
       Scenario.schemas Cases.remote_down Scenario.dac_to_area_codes)
    Cases.empty_disk
  = (Err NetworkError,
     mkStore ∅ [Dac2Translation.DAC2_TRANSLATION_SCHEMA_URL]).
Proof. vm_compute. reflexivity. Defined.

(** No base file and no network: the error of the base load. *)
Lemma area_code_mapping_base_error_witness :
  Dac2Translation.area_code_mapping
    Scenario.schemas Cases.remote_down Scenario.decimal
    Scenario.dac_to_area_codes Cases.empty_disk
  = (Err NetworkError,
     mkStore ∅ [Dac2Translation.DAC2_TRANSLATION_SCHEMA_URL]).
Proof.
  exact (area_code_mapping_base_error
           Scenario.schemas Cases.remote_down Scenario.decimal
           Scenario.dac_to_area_codes Cases.empty_disk NetworkError _
           cases_base_load_down).
Defined.

(** The merged keys of the scenario are [1; 2; 3]. *)
Lemma area_code_mapping_key_order_witness :
  PyDict.wf Scenario.merged
  ∧ ∃ base corrections s1,
      read_mapping Scenario.decimal
        (path_join Scenario.schemas "dac2_codes_area.json") true
        (Dac2Translation.update_dac2_translation_mappings
           Scenario.schemas Scenario.remote Scenario.dac_to_area_codes)
        Scenario.disk = (Ok base, s1)
      ∧ read_mapping Scenario.decimal
          (path_join Scenario.schemas "area_code_corrections.json") true
          (Dac2Translation.update_dac2_translation_mappings
             Scenario.schemas Scenario.remote Scenario.dac_to_area_codes)
          s1 = (Ok corrections, Scenario.disk)
      ∧ PyDict.keys Scenario.merged
        = PyDict.keys base
          ++ filter (λ k, k ∉ PyDict.keys base) (PyDict.keys corrections).
Proof.
  exact (area_code_mapping_key_order
           Scenario.schemas Scenario.remote Scenario.decimal
           Scenario.dac_to_area_codes Scenario.disk Scenario.merged
           Scenario.disk scenario_area_code_mapping).
Defined.

Lemma cases_base_on_disk :
  files Scenario.disk !! path_join Scenario.schemas "dac2_codes_area.json"
  = Some Scenario.base_file.
Proof. vm_compute. reflexivity. Defined.

Lemma cases_corrections_on_disk :
  files Scenario.disk
    !! path_join Scenario.schemas "area_code_corrections.json"
  = Some Scenario.corrections_file.
Proof. vm_compute. reflexivity. Defined.

(** Both files of the scenario on disk: the state is left as it was. *)
Lemma area_code_mapping_cache_hit_witness :
  (Scenario.area_code_mapping Scenario.disk).2 = Scenario.disk
  ∧ (Scenario.area_code_mapping Scenario.disk).1
    = Ok (PyDict.union [(CInt 1, CStr "A"); (CInt 2, CStr "B")]
            [(CInt 2, CStr "B2"); (CInt 3, CStr "C")]).
Proof.
  pose proof (area_code_mapping_cache_hit
                Scenario.schemas Scenario.remote Scenario.decimal
                Scenario.dac_to_area_codes Scenario.disk Scenario.base_file
                Scenario.corrections_file cases_base_on_disk
                cases_corrections_on_disk) as [Hstate Hresult].
  split; [exact Hstate|].
  exact (Hresult [(CInt 1, CStr "A"); (CInt 2, CStr "B")]
           [(CInt 2, CStr "B2"); (CInt 3, CStr "C")] eq_refl eq_refl).
Defined.

Lemma cases_first_call :
  Scenario.area_code_mapping Cases.disk_without_base
  = (Ok Scenario.merged,
     mkStore (<[Scenario.base_path := Scenario.base_file]>
                (files Cases.disk_without_base))
       [Dac2Translation.DAC2_TRANSLATION_SCHEMA_URL]).
Proof. vm_compute. reflexivity. Defined.

(** The base file is fetched by the first call and read by the second. *)
Lemma area_code_mapping_repeat_witness :
  Scenario.area_code_mapping
    (mkStore (<[Scenario.base_path := Scenario.base_file]>
                (files Cases.disk_without_base))
       [Dac2Translation.DAC2_TRANSLATION_SCHEMA_URL])
  = (Ok Scenario.merged,
     mkStore (<[Scenario.base_path := Scenario.base_file]>
                (files Cases.disk_without_base))
       [Dac2Translation.DAC2_TRANSLATION_SCHEMA_URL]).
Proof.
  exact (area_code_mapping_repeat
           Scenario.schemas Scenario.remote Scenario.decimal
           Scenario.dac_to_area_codes Cases.disk_without_base
           Scenario.merged _ cases_first_call).
Defined.

(** Nothing on disk: two requests, the base file written, the call fails. *)
Lemma area_code_mapping_both_absent_witness :
  Scenario.area_code_mapping Cases.empty_disk
  = (Err UpdateFailedError,
     mkStore (<[path_join Scenario.schemas "dac2_codes_area.json"
                := Scenario.base_file]> ∅)
       [Dac2Translation.DAC2_TRANSLATION_SCHEMA_URL;
        Dac2Translation.DAC2_TRANSLATION_SCHEMA_URL]).
Proof.
  exact (area_code_mapping_both_absent
           Scenario.schemas Scenario.remote Scenario.decimal
           Scenario.dac_to_area_codes Cases.empty_disk
           (XDict [("Structures", XDict [("Codelists", XList [])])])
           (XDict [("Codelists", XList [])])
           [(CInt 1, CStr "A"); (CInt 2, CStr "B")]
           eq_refl eq_refl eq_refl eq_refl eq_refl).
Defined.

Lemma cases_update_without_structures :
  Dac2Translation.update_dac2_translation_mappings
    Scenario.schemas Cases.remote_without_structures
    Scenario.dac_to_area_codes Scenario.disk_without_corrections
  = (Err (KeyError "Structures"),
     mkStore (files Scenario.disk_without_corrections)
       [Dac2Translation.DAC2_TRANSLATION_SCHEMA_URL]).
Proof. reflexivity. Defined.

(** A document without [Structures]: [KeyError], the base file as it was. *)
Lemma update_error_keeps_files_witness :
  files (mkStore (files Scenario.disk_without_corrections)
           [Dac2Translation.DAC2_TRANSLATION_SCHEMA_URL])
  = files Scenario.disk_without_corrections
  ∧ fetched (mkStore (files Scenario.disk_without_corrections)
               [Dac2Translation.DAC2_TRANSLATION_SCHEMA_URL])
    = Dac2Translation.DAC2_TRANSLATION_SCHEMA_URL
        :: fetched Scenario.disk_without_corrections
  ∧ update_error (KeyError "Structures").
Proof.
  exact (update_error_keeps_files
           Scenario.schemas Cases.remote_without_structures
           Scenario.dac_to_area_codes Scenario.disk_without_corrections
           (KeyError "Structures") _ cases_update_without_structures).
Defined.

Lemma cases_area_load_down :
  Dac2Translation.area_code_mapping
    Scenario.schemas Cases.remote_down Scenario.decimal
    Scenario.dac_to_area_codes (store (mkWorld Cases.empty_disk [Scenario.rows] []))
  = (Err NetworkError,
     mkStore ∅ [Dac2Translation.DAC2_TRANSLATION_SCHEMA_URL]).
Proof. vm_compute. reflexivity. Defined.

(** The area mapping cannot be loaded: no data frame is created. *)
Lemma convert_to_dotstat_codes_load_error_witness :
  Dac2Translation.convert_to_dotstat_codes
    Scenario.schemas Cases.remote_down Scenario.decimal
    Scenario.dac_to_area_codes (ret Scenario.prices) 0
    (mkWorld Cases.empty_disk [Scenario.rows] [])
  = (Err NetworkError,
     mkWorld (mkStore ∅ [Dac2Translation.DAC2_TRANSLATION_SCHEMA_URL])
       [Scenario.rows] []).
Proof.
  exact (proj1 (convert_to_dotstat_codes_load_error
           Scenario.schemas Cases.remote_down Scenario.decimal
           Scenario.dac_to_area_codes (ret Scenario.prices)
           (mkWorld Cases.empty_disk [Scenario.rows] []) 0)
           NetworkError _ cases_area_load_down).
Defined.
